(** * Encryption tool: execution backends, unit-file transformer, pipelines

    A shallow embedding of [third_version.py]: the SSH connection and the
    remote executor, the systemd unit-file parser and rewriter of
    [ServiceConfigTab], and the two worker threads [EncryptionWorker] and
    [ServiceConfigWorker].

    Text is modelled by [string]: a sequence of 8-bit characters, read as
    the UTF-8 bytes of the Python [str].  Python's [str.strip()] removes
    every character for which [str.isspace()] holds; on ASCII text these are
    the codes 9-13, 28-31 and 32, which is the set used here.  Unit files
    whose lines begin or end with non-ASCII blanks (U+0085, U+00A0, ...) lie
    outside the model. *)

From Stdlib Require Import String Ascii List Bool Arith ZArith Lia.
From Stdlib Require Import Sorting.Sorted.
Import ListNotations.
Local Open Scope list_scope.
Local Open Scope string_scope.



(** ** Python string operations *)

Module PyStr.

(** The double quote, used inside f-strings of the source. *)
Definition dquote : string := String "034"%char "".

Definition newline : ascii := "010"%char.
Definition nl : string := String newline "".
Definition slash : ascii := "/"%char.
Definition backslash : ascii := "\"%char.

(** [c.isspace()] on ASCII. *)
Definition isspace (c : ascii) : bool :=
  let n := nat_of_ascii c in
  (Nat.leb 9 n && Nat.leb n 13) || (Nat.leb 28 n && Nat.leb n 32).

(** [s.lstrip()] *)
Fixpoint lstrip (s : string) : string :=
  match s with
  | "" => ""
  | String c r => if isspace c then lstrip r else s
  end.

(** [s.rstrip()] *)
Fixpoint rstrip (s : string) : string :=
  match s with
  | "" => ""
  | String c r =>
      match rstrip r with
      | "" => if isspace c then "" else String c ""
      | r' => String c r'
      end
  end.

(** [s.strip()] *)
Definition strip (s : string) : string := rstrip (lstrip s).

(** [s.startswith(p)] *)
Fixpoint startswith (p s : string) : bool :=
  match p, s with
  | "", _ => true
  | String a p', String b s' => Ascii.eqb a b && startswith p' s'
  | String _ _, "" => false
  end.

(** [s[n:]] *)
Fixpoint drop (n : nat) (s : string) : string :=
  match n, s with
  | O, _ => s
  | S n', String _ r => drop n' r
  | S _, "" => ""
  end.

(** [s.endswith(p)] *)
Definition endswith (p s : string) : bool :=
  Nat.leb (String.length p) (String.length s)
  && (drop (String.length s - String.length p) s =? p).

(** [sub in s] *)
Fixpoint contains (sub s : string) : bool :=
  startswith sub s ||
  match s with
  | "" => false
  | String _ r => contains sub r
  end.

(** [c in s] for a single character. *)
Fixpoint mem_char (c : ascii) (s : string) : bool :=
  match s with
  | "" => false
  | String a r => Ascii.eqb a c || mem_char c r
  end.

(** [s.split(sep)] for a one-character separator: never the empty list. *)
Fixpoint split (sep : ascii) (s : string) : list string :=
  match s with
  | "" => [""]
  | String a r =>
      if Ascii.eqb a sep then "" :: split sep r
      else match split sep r with
           | h :: t => String a h :: t
           | [] => [String a ""]
           end
  end.

(** [sep.join(ls)] *)
Definition join (sep : string) (ls : list string) : string := String.concat sep ls.

(** [s.split(sep, 1)]: at most one cut, at the first separator. *)
Fixpoint split1 (sep : ascii) (s : string) : list string :=
  match s with
  | "" => [""]
  | String a r =>
      if Ascii.eqb a sep then [""; r]
      else match split1 sep r with
           | h :: t => String a h :: t
           | [] => [String a ""]
           end
  end.

(** [ls[i]], which raises [IndexError] out of range: [None] here. *)
Definition index (ls : list string) (i : nat) : option string := nth_error ls i.

(** [s.replace(a, b)] for single characters. *)
Fixpoint replace (a b : ascii) (s : string) : string :=
  match s with
  | "" => ""
  | String c r => String (if Ascii.eqb c a then b else c) (replace a b r)
  end.

(** [s.replace(old, new)] for a non-empty [old]: [skip] counts the
    characters of a match still to be passed over. *)
Fixpoint replace_from (old new : string) (skip : nat) (s : string) : string :=
  match s with
  | "" => ""
  | String c r =>
      match skip with
      | S k => replace_from old new k r
      | O => if startswith old s
             then new ++ replace_from old new (String.length old - 1) r
             else String c (replace_from old new 0 r)
      end
  end.

Definition replace_str (old new s : string) : string := replace_from old new 0 s.

(** [s.rstrip('/')] *)
Fixpoint rstrip_char (c : ascii) (s : string) : string :=
  match s with
  | "" => ""
  | String a r =>
      match rstrip_char c r with
      | "" => if Ascii.eqb a c then "" else String a ""
      | r' => String a r'
      end
  end.

(** [s == c * len(s)] *)
Fixpoint all_char (c : ascii) (s : string) : bool :=
  match s with
  | "" => true
  | String a r => Ascii.eqb a c && all_char c r
  end.

(** [s[:n]] *)
Fixpoint take (n : nat) (s : string) : string :=
  match n, s with
  | O, _ => ""
  | S n', String a r => String a (take n' r)
  | S _, "" => ""
  end.

End PyStr.

(** ** [posixpath] *)

Module PosixPath.
Import PyStr.

(** [os.path.join(a, b)] *)
Definition join (a b : string) : string :=
  if startswith "/" b then b
  else if (a =? "") || endswith "/" a then a ++ b
  else a ++ "/" ++ b.

(** [p[p.rfind('/') + 1:]], that is [os.path.basename(p)] *)
Fixpoint basename (p : string) : string :=
  match p with
  | "" => ""
  | String c r =>
      if mem_char slash r then basename r
      else if Ascii.eqb c slash then r
      else p
  end.

(** [os.path.dirname(p)]: the head up to and including the last slash,
    with its trailing slashes removed unless it consists of slashes only. *)
Definition dirname (p : string) : string :=
  let head := take (String.length p - String.length (basename p)) p in
  if negb (head =? "") && negb (all_char slash head)
  then rstrip_char slash head
  else head.

End PosixPath.

(** ** [SSHConnection] and [RemoteExecutor] *)

Module SSH.
Import PyStr.

(** What the command methods return: [(success, stdout, stderr)]. *)
Definition Result : Type := bool * string * string.

Definition succeeded (r : Result) : bool := fst (fst r).

(** Outcome of paramiko's [client.exec_command] followed by reading both
    streams and the exit status: either the three values or an exception
    (whose [str(e)] is kept). *)
Inductive ChannelReply : Type :=
| Reply (out err : string) (exit_code : Z)
| Raised (msg : string).

(** The remote end of the control channel.  Its answer may depend on
    everything sent before, on the command and on [get_pty]. *)
Record Client : Type := {
  respond : list string -> string -> bool -> ChannelReply
}.

(** [SSHConnection]: [client], [_connected], and the strings handed to
    [client.exec_command] so far, oldest first.  The SFTP sub-channel is
    not needed by the command methods and is left out. *)
Record SSHConnection : Type := {
  client : option Client;
  _connected : bool;
  channel : list string
}.

Definition is_connected (self : SSHConnection) : bool :=
  _connected self && match client self with Some _ => true | None => false end.

Definition path_prefix : string :=
  "export PATH=" ++ dquote ++ "$HOME/.local/bin:$HOME/bin:/usr/local/bin:$PATH"
  ++ dquote ++ " && ".

Definition send (self : SSHConnection) (full_cmd : string) : SSHConnection :=
  {| client := client self;
     _connected := _connected self;
     channel := (channel self ++ [full_cmd])%list |}.

(** [SSHConnection.exec_command].  After the [is_connected] guard the
    client is present; the last branch cannot be reached. *)
Definition exec_command (self : SSHConnection) (cmd : string) (get_pty : bool)
  : Result * SSHConnection :=
  if negb (is_connected self) then ((false, "", "Not connected to SSH"), self)
  else
    let full_cmd := path_prefix ++ cmd in
    match client self with
    | Some cl =>
        match respond cl (channel self) full_cmd get_pty with
        | Reply out err exit_code => ((Z.eqb exit_code 0, out, err), send self full_cmd)
        | Raised msg => ((false, "", msg), send self full_cmd)
        end
    | None => ((false, "", "Not connected to SSH"), self)
    end.

(** [SSHConnection.exec_sudo_command] *)
Definition exec_sudo_command (self : SSHConnection) (cmd sudo_pass : string)
  : Result * SSHConnection :=
  let full_cmd := "echo " ++ sudo_pass ++ " | sudo -S " ++ cmd in
  exec_command self full_cmd true.

(** [RemoteExecutor], which only holds the connection. *)
Record RemoteExecutor : Type := { ssh : SSHConnection }.

Definition with_ssh {A : Type} (r : A * SSHConnection) : A * RemoteExecutor :=
  (fst r, {| ssh := snd r |}).

Definition run_command (self : RemoteExecutor) (cmd : string) :=
  with_ssh (exec_command (ssh self) cmd false).

Definition run_sudo_command (self : RemoteExecutor) (cmd sudo_pass : string) :=
  with_ssh (exec_sudo_command (ssh self) cmd sudo_pass).

(** [RemoteExecutor.glob_files] *)
Definition glob_files (self : RemoteExecutor) (pattern : string)
  : list string * RemoteExecutor :=
  let parent_dir := PosixPath.dirname pattern in
  let file_pattern := PosixPath.basename pattern in
  let '((success, stdout, _), conn) :=
    exec_command (ssh self)
      ("find " ++ parent_dir ++ " -maxdepth 1 -name '" ++ file_pattern
       ++ "' 2>/dev/null") false in
  if success && negb (strip stdout =? "")
  then (split newline (strip stdout), {| ssh := conn |})
  else ([], {| ssh := conn |}).

(** The strings put on the control channel by a call that starts in
    [before] and ends in [after]. *)
Definition sent_during (before after : SSHConnection) : list string :=
  skipn (List.length (channel before)) (channel after).

End SSH.

(** ** The executor interface

    [CommandExecutor] of the source, over a type [W] of backend states.
    Commands and writes change the backend; the queries only observe it.
    [glob_files] and [get_file_mtime] are not used by the code below. *)

Class CommandExecutor (W : Type) : Type := {
  run_command : string -> W -> SSH.Result * W;
  run_sudo_command : string -> string -> W -> SSH.Result * W;
  read_file : W -> string -> option string;
  write_file : string -> string -> W -> bool * W;
  file_exists : W -> string -> bool;
  list_dir : W -> string -> list string;
  is_dir : W -> string -> bool
}.

(** ** [ServiceConfigTab]: the unit-file transformer *)

Module Unit.
Import PyStr.

(** [current_service_config].  The dictionary is only read through
    [.get(key, '')], so the empty dictionary the tab starts with is the
    record of empty fields. *)
Record ServiceConfig : Type := {
  WorkingDirectory : string;
  ExecStart : string;
  Environment : list string;
  User : string;
  Group : string
}.

Definition empty_config : ServiceConfig :=
  {| WorkingDirectory := ""; ExecStart := ""; Environment := [];
     User := ""; Group := "" |}.

(** [line.split('=', 1)[1]]; the index exists whenever the line contains
    an equals sign, which every guarded use ensures. *)
Definition value_of (line : string) : string :=
  match index (split1 "=" line) 1 with
  | Some v => v
  | None => ""
  end.

(** Body of the loop of [parse_service_content]. *)
Definition parse_line (cfg : ServiceConfig) (line0 : string) : ServiceConfig :=
  let line := strip line0 in
  if startswith "WorkingDirectory=" line then
    {| WorkingDirectory := value_of line; ExecStart := ExecStart cfg;
       Environment := Environment cfg; User := User cfg; Group := Group cfg |}
  else if startswith "ExecStart=" line then
    {| WorkingDirectory := WorkingDirectory cfg; ExecStart := value_of line;
       Environment := Environment cfg; User := User cfg; Group := Group cfg |}
  else if startswith "Environment=" line then
    {| WorkingDirectory := WorkingDirectory cfg; ExecStart := ExecStart cfg;
       Environment := app (Environment cfg) [value_of line];
       User := User cfg; Group := Group cfg |}
  else if startswith "User=" line then
    {| WorkingDirectory := WorkingDirectory cfg; ExecStart := ExecStart cfg;
       Environment := Environment cfg; User := value_of line; Group := Group cfg |}
  else if startswith "Group=" line then
    {| WorkingDirectory := WorkingDirectory cfg; ExecStart := ExecStart cfg;
       Environment := Environment cfg; User := User cfg; Group := value_of line |}
  else cfg.

(** The dictionary built by [parse_service_content]. *)
Definition parse_service_content (content : string) : ServiceConfig :=
  fold_left parse_line (split newline content) empty_config.

(** State of the loop of [generate_new_service_content]. *)
Record LoopState : Type := {
  new_lines : list string;
  pythonpath_added : bool;
  in_service_section : bool
}.

Definition pythonpath_line (python_path : string) : string :=
  "Environment=" ++ dquote ++ "PYTHONPATH=" ++ python_path ++ dquote.

(** Body of the first loop of [generate_new_service_content]. *)
Definition rewrite_line (new_working_dir python_path user : string)
    (st : LoopState) (line : string) : LoopState :=
  let stripped := strip line in
  if stripped =? "[Service]" then
    {| new_lines := app (new_lines st) [line];
       pythonpath_added := pythonpath_added st;
       in_service_section := true |}
  else if startswith "[" stripped && endswith "]" stripped then
    if in_service_section st && negb (pythonpath_added st) then
      {| new_lines := app (new_lines st) [pythonpath_line python_path; line];
         pythonpath_added := true;
         in_service_section := false |}
    else
      {| new_lines := app (new_lines st) [line];
         pythonpath_added := pythonpath_added st;
         in_service_section := false |}
  else if startswith "WorkingDirectory=" stripped then
    {| new_lines := app (new_lines st) ["WorkingDirectory=" ++ new_working_dir];
       pythonpath_added := pythonpath_added st;
       in_service_section := in_service_section st |}
  else if startswith "User=" stripped && negb (user =? "") then
    {| new_lines := app (new_lines st) ["User=" ++ user];
       pythonpath_added := pythonpath_added st;
       in_service_section := in_service_section st |}
  else if startswith "Group=" stripped && negb (user =? "") then
    {| new_lines := app (new_lines st) ["Group=" ++ user];
       pythonpath_added := pythonpath_added st;
       in_service_section := in_service_section st |}
  else if startswith "Environment=" stripped && contains "PYTHONPATH" stripped then
    {| new_lines := app (new_lines st) [pythonpath_line python_path];
       pythonpath_added := true;
       in_service_section := in_service_section st |}
  else
    {| new_lines := app (new_lines st) [line];
       pythonpath_added := pythonpath_added st;
       in_service_section := in_service_section st |}.

(** The second loop, run when no PYTHONPATH line was written. *)
Definition add_after_service (python_path : string) (lines : list string)
  : list string :=
  fold_left
    (fun result_lines line =>
       if strip line =? "[Service]"
       then app result_lines [line; pythonpath_line python_path]
       else app result_lines [line])
    lines [].

(** The list [new_lines] that [generate_new_service_content] joins. *)
Definition generate_lines (new_working_dir python_path user original_content : string)
  : list string :=
  let st :=
    fold_left (rewrite_line new_working_dir python_path user)
      (split newline original_content)
      {| new_lines := []; pythonpath_added := false; in_service_section := false |} in
  if negb (pythonpath_added st)
  then add_after_service python_path (new_lines st)
  else new_lines st.

(** [_generate_fallback_service_content], given the text of the service
    selector. *)
Definition _generate_fallback_service_content
    (combo_service_text working_dir python_path user : string) : string :=
  let service_name := replace_str ".service" "" combo_service_text in
  join nl
    [ "[Unit]";
      "Description=Service for " ++ service_name;
      "After=network.target";
      "";
      "[Service]";
      "User=" ++ user;
      "Group=" ++ user;
      "Environment=" ++ dquote ++ "PYTHONPATH=" ++ python_path ++ dquote;
      "Environment=" ++ dquote ++ "PYTHONUNBUFFERED=1" ++ dquote;
      "WorkingDirectory=" ++ working_dir;
      "ExecStart=/usr/bin/python3 main.py";
      "Restart=always";
      "RestartSec=5";
      "StandardOutput=journal";
      "StandardError=journal";
      "";
      "[Install]";
      "WantedBy=multi-user.target";
      "" ].

(** The guard of [generate_new_service_content] that selects the
    fallback. *)
Definition unreadable (original_content : string) : bool :=
  (original_content =? "")
  || startswith "Could not read" original_content
  || startswith "Error" original_content.

Section Tab.
Context {W : Type} `{CommandExecutor W}.

(** The fields of [ServiceConfigTab] the transformer reads: the
    executor, the parsed dictionary and the texts of four widgets.  A text
    widget is taken to give back the text it was set to. *)
Record ServiceConfigTab : Type := {
  executor : W;
  current_service_config : ServiceConfig;
  txt_current_config : string;
  input_encrypted_folder : string;
  input_user : string;
  combo_service : string
}.

(** [_detect_project_folder] *)
Definition _detect_project_folder (self : ServiceConfigTab) (dist_folder : string)
  : option string :=
  let items := list_dir (executor self) dist_folder in
  find (fun item =>
          let item_path := PosixPath.join dist_folder item in
          is_dir (executor self) item_path
          && negb (startswith "pyarmor_runtime" item))
       items.

(** First index whose element satisfies [p]: the [enumerate] loop with
    [break]. *)
Fixpoint find_index (p : string -> bool) (l : list string) : option nat :=
  match l with
  | [] => None
  | x :: r => if p x then Some 0
              else match find_index p r with
                   | Some i => Some (S i)
                   | None => None
                   end
  end.

(** [_calculate_new_working_dir] *)
Definition _calculate_new_working_dir (self : ServiceConfigTab) (dist_folder : string)
  : string :=
  match _detect_project_folder self dist_folder with
  | None => dist_folder
  | Some project_folder =>
      if project_folder =? "" then dist_folder
      else
        let base_path := PosixPath.join dist_folder project_folder in
        let original_wd := WorkingDirectory (current_service_config self) in
        if original_wd =? "" then base_path
        else
          let original_parts := split slash (replace backslash slash original_wd) in
          match find_index (fun part => part =? project_folder) original_parts with
          | Some project_idx =>
              if Nat.ltb project_idx (List.length original_parts - 1) then
                let subdirs := join "/" (skipn (project_idx + 1) original_parts) in
                PosixPath.join base_path subdirs
              else base_path
          | None => base_path
          end
  end.

(** [generate_new_service_content] *)
Definition generate_new_service_content (self : ServiceConfigTab) : string :=
  let dist_folder := input_encrypted_folder self in
  let user := input_user self in
  let new_working_dir := _calculate_new_working_dir self dist_folder in
  let python_path := dist_folder in
  let original_content := txt_current_config self in
  if unreadable original_content then
    _generate_fallback_service_content (combo_service self)
      new_working_dir python_path user
  else
    join nl (generate_lines new_working_dir python_path user original_content).

(** The end of [parse_service]: a non-empty [content] is shown and
    parsed, anything else leaves the dictionary alone and shows the
    failure text. *)
Definition show_content (self : ServiceConfigTab) (service_path content : string)
  : ServiceConfigTab :=
  if negb (content =? "") then
    {| executor := executor self;
       current_service_config := parse_service_content content;
       txt_current_config := content;
       input_encrypted_folder := input_encrypted_folder self;
       input_user := input_user self;
       combo_service := combo_service self |}
  else
    {| executor := executor self;
       current_service_config := current_service_config self;
       txt_current_config := "Could not read service file: " ++ service_path;
       input_encrypted_folder := input_encrypted_folder self;
       input_user := input_user self;
       combo_service := combo_service self |}.

Definition with_executor (self : ServiceConfigTab) (w : W) : ServiceConfigTab :=
  {| executor := w;
     current_service_config := current_service_config self;
     txt_current_config := txt_current_config self;
     input_encrypted_folder := input_encrypted_folder self;
     input_user := input_user self;
     combo_service := combo_service self |}.

(** [parse_service]: read the unit file, directly or else through [cat],
    at last through [sudo cat] with an empty password, and show what was
    read.  The warning box and the log line are left out. *)
Definition parse_service (self : ServiceConfigTab) : ServiceConfigTab :=
  let service_name := combo_service self in
  if service_name =? "" then self
  else
    let service_path := "/etc/systemd/system/" ++ service_name in
    match read_file (executor self) service_path with
    | Some content => show_content self service_path content
    | None =>
        let '((success, content, _), w1) :=
          run_command ("cat " ++ service_path) (executor self) in
        if success then show_content (with_executor self w1) service_path content
        else
          let '((_, content', _), w2) :=
            run_sudo_command ("cat " ++ service_path) "" w1 in
          show_content (with_executor self w2) service_path content'
    end.

End Tab.

End Unit.

(** ** A table-driven backend

    A backend given by tables: what each directory lists, which paths are
    directories or files, and how commands answer.  It records nothing and
    never changes; it serves the concrete runs below. *)

Module Table.

Record Backend : Type := {
  listing : string -> list string;
  directories : list string;
  files : list (string * string);
  answers : string -> SSH.Result;
  sudo_answers : string -> string -> SSH.Result;
  writable : bool
}.

Definition lookup (path : string) (tbl : list (string * string)) : option string :=
  match find (fun kv => fst kv =? path) tbl with
  | Some kv => Some (snd kv)
  | None => None
  end.

#[export] Instance table_executor : CommandExecutor Backend := {
  run_command cmd w := (answers w cmd, w);
  run_sudo_command cmd sudo_pass w := (sudo_answers w cmd sudo_pass, w);
  read_file w path := lookup path (files w);
  write_file path content w := (writable w, w);
  file_exists w path :=
    existsb (String.eqb path) (directories w)
    || match lookup path (files w) with Some _ => true | None => false end;
  list_dir w path := listing w path;
  is_dir w path := existsb (String.eqb path) (directories w)
}.

End Table.

(** ** Worker threads

    A worker runs against a backend state and leaves a transcript of what
    it did: the lines it emitted on [log_signal] and the calls it made on
    the executor, in order.  The value of [finished_signal] is the result
    of [run]. *)

Module Worker.

Inductive Event : Type :=
| Log (msg : string)
| RunCommand (cmd : string)
| RunSudoCommand (cmd sudo_pass : string)
| WriteFile (path content : string)
| FileExists (path : string).

Section Monad.
Context {W : Type} `{CommandExecutor W}.

(** Computations over the backend state that accumulate a transcript. *)
Definition M (A : Type) : Type := W -> A * W * list Event.

Definition ret {A : Type} (a : A) : M A := fun w => (a, w, []).

Definition bind {A B : Type} (m : M A) (k : A -> M B) : M B :=
  fun w =>
    let '(a, w1, t1) := m w in
    let '(b, w2, t2) := k a w1 in
    (b, w2, (t1 ++ t2)%list).

Definition log (msg : string) : M unit := fun w => (tt, w, [Log msg]).

Definition exec_run (cmd : string) : M SSH.Result :=
  fun w => let '(r, w') := run_command cmd w in (r, w', [RunCommand cmd]).

Definition exec_sudo (cmd sudo_pass : string) : M SSH.Result :=
  fun w => let '(r, w') := run_sudo_command cmd sudo_pass w in
           (r, w', [RunSudoCommand cmd sudo_pass]).

Definition exec_write (path content : string) : M bool :=
  fun w => let '(ok, w') := write_file path content w in
           (ok, w', [WriteFile path content]).

Definition exec_exists (path : string) : M bool :=
  fun w => (file_exists w path, w, [FileExists path]).

(** [if s: self.log(f(s))] *)
Definition log_if_nonempty (s : string) (line : string) : M unit :=
  if negb (s =? "") then log line else ret tt.

End Monad.

Declare Scope worker_scope.
Delimit Scope worker_scope with worker.
Notation "x <- m ;; k" := (bind m (fun x => k))
  (at level 61, m at next level, right associativity) : worker_scope.
Notation "m ;; k" := (bind m (fun _ => k))
  (at level 61, right associativity) : worker_scope.

(** The lines of a transcript that went to [log_signal]. *)
Fixpoint log_lines (t : list Event) : list string :=
  match t with
  | [] => []
  | Log msg :: r => msg :: log_lines r
  | _ :: r => log_lines r
  end.

(** The commands a transcript handed to the executor, privileged or not. *)
Fixpoint commands (t : list Event) : list string :=
  match t with
  | [] => []
  | RunCommand cmd :: r => cmd :: commands r
  | RunSudoCommand cmd _ :: r => cmd :: commands r
  | _ :: r => commands r
  end.

End Worker.

(** ** [EncryptionWorker] and [ServiceConfigWorker] *)

Module Pipelines.
Import Worker.
Local Open Scope worker_scope.

(** The two status marks the log lines begin with, as they stand in the
    source text. *)
Definition cross_mark : string := "‚ùå".
Definition check_mark : string := "‚úÖ".

Section Run.
Context {W : Type} `{CommandExecutor W}.

(** [EncryptionWorker.run]; the result is the pair emitted on
    [finished_signal]. *)
Definition encryption_run (folder : string) : M (bool * string) :=
  log "--- Starting Encryption Process ---" ;;
  log "Executing: pyarmor cfg data_files=*" ;;
  r <- exec_run "pyarmor cfg data_files=*" ;;
  let '(success, stdout, stderr) := r in
  log_if_nonempty stdout stdout ;;
  log_if_nonempty stderr ("STDERR: " ++ stderr) ;;
  if negb success then
    log (cross_mark ++ " Failed to configure PyArmor") ;;
    ret (false, "")
  else
    let dist_path := PosixPath.join folder "dist" in
    present <- exec_exists dist_path ;;
    (if present then
       log ("Cleaning existing dist folder: " ++ dist_path) ;;
       _ <- exec_run ("rm -rf " ++ dist_path) ;;
       ret tt
     else ret tt) ;;
    log ("Encrypting folder: " ++ folder) ;;
    let enc_cmd :=
      "pyarmor gen -O " ++ dist_path
      ++ " -r --exclude '*/.venv/**' --exclude '*/__pycache__/**' " ++ folder in
    log ("Executing: " ++ enc_cmd) ;;
    r <- exec_run enc_cmd ;;
    let '(success, stdout, stderr) := r in
    log_if_nonempty stdout stdout ;;
    log_if_nonempty stderr ("STDERR: " ++ stderr) ;;
    if negb success then
      log (cross_mark ++ " Encryption failed!") ;;
      ret (false, "")
    else
      log (check_mark ++ " Encryption completed successfully!") ;;
      ret (true, dist_path).

(** [ServiceConfigWorker.run]; the result is the flag emitted on
    [finished_signal]. *)
Definition service_config_run (service_name new_config sudo_pass : string) : M bool :=
  log "--- Updating Service Configuration ---" ;;
  let temp_path := "/tmp/" ++ service_name in
  log ("Writing service file to: " ++ temp_path) ;;
  written <- exec_write temp_path new_config ;;
  if negb written then
    log (cross_mark ++ " Failed to write temp service file") ;;
    ret false
  else
    log ("Generated service file at: " ++ temp_path) ;;
    let target_path := "/etc/systemd/system/" ++ service_name in
    log ("Moving to: " ++ target_path) ;;
    r <- exec_sudo ("mv " ++ temp_path ++ " " ++ target_path) sudo_pass ;;
    let '(success, stdout, stderr) := r in
    log_if_nonempty stdout stdout ;;
    if negb success then
      log (cross_mark ++ " Failed to move service file: " ++ stderr) ;;
      ret false
    else
      log "Reloading systemd daemon..." ;;
      _ <- exec_sudo "systemctl daemon-reload" sudo_pass ;;
      log ("Restarting " ++ service_name ++ "...") ;;
      r <- exec_sudo ("systemctl restart " ++ service_name) sudo_pass ;;
      let '(success, stdout, stderr) := r in
      log_if_nonempty stdout stdout ;;
      log (check_mark ++ " Service configuration updated successfully!") ;;
      ret true.

End Run.

(** The three views of a finished run. *)
Definition outcome {W A : Type} (r : A * W * list Event) : A := fst (fst r).
Definition transcript {W A : Type} (r : A * W * list Event) : list Event := snd r.

End Pipelines.

(** ** Vocabulary for the statements about the transformer *)

Module UnitSpec.
Import PyStr Unit.

(** Strings without blanks. *)
Fixpoint no_space (s : string) : bool :=
  match s with
  | "" => true
  | String c r => negb (isspace c) && no_space r
  end.

(** The tests that the loop of [generate_new_service_content] and the
    parser apply to a line, each on the stripped line. *)
Definition is_service_line (l : string) : bool := strip l =? "[Service]".
Definition is_section_line (l : string) : bool :=
  startswith "[" (strip l) && endswith "]" (strip l).
Definition is_workdir_line (l : string) : bool :=
  startswith "WorkingDirectory=" (strip l).
Definition is_user_line (l : string) : bool := startswith "User=" (strip l).
Definition is_group_line (l : string) : bool := startswith "Group=" (strip l).
Definition is_execstart_line (l : string) : bool := startswith "ExecStart=" (strip l).
Definition is_pythonpath_line (l : string) : bool :=
  startswith "Environment=" (strip l) && contains "PYTHONPATH" (strip l).

(** The lines the rewriter replaces instead of copying. *)
Definition rewritten (user l : string) : bool :=
  is_workdir_line l
  || ((is_user_line l || is_group_line l) && negb (user =? ""))
  || is_pythonpath_line l.

(** What the last five branches of the loop body append for a line. *)
Definition replaced (new_working_dir python_path user l : string) : string :=
  if is_workdir_line l then "WorkingDirectory=" ++ new_working_dir
  else if is_user_line l && negb (user =? "") then "User=" ++ user
  else if is_group_line l && negb (user =? "") then "Group=" ++ user
  else if is_pythonpath_line l then pythonpath_line python_path
  else l.

(** [Inserted x l l']: [l'] is [l] with copies of [x] put in at some
    places. *)
Inductive Inserted {A : Type} (x : A) : list A -> list A -> Prop :=
| Inserted_nil : Inserted x [] []
| Inserted_keep a l l' : Inserted x l l' -> Inserted x (a :: l) (a :: l')
| Inserted_add l l' : Inserted x l l' -> Inserted x l (x :: l').

(** One turn of the first loop, from the two flags alone: the lines it
    appends and the new flags. *)
Definition step (new_working_dir python_path user : string)
    (added in_service : bool) (l : string) : list string * bool * bool :=
  let st := rewrite_line new_working_dir python_path user
              {| new_lines := []; pythonpath_added := added;
                 in_service_section := in_service |} l in
  (new_lines st, pythonpath_added st, in_service_section st).

Fixpoint run_loop (new_working_dir python_path user : string)
    (added in_service : bool) (lines : list string) : list string * bool * bool :=
  match lines with
  | [] => ([], added, in_service)
  | l :: r =>
      let '(o, a1, i1) := step new_working_dir python_path user added in_service l in
      let '(o', a2, i2) := run_loop new_working_dir python_path user a1 i1 r in
      ((o ++ o')%list, a2, i2)
  end.

(** The ExecStart value the parser ends with, given the one it starts
    with. *)
Definition last_execstart (lines : list string) (start : string) : string :=
  fold_left (fun acc l => if is_execstart_line l then value_of (strip l) else acc)
    lines start.

(** Where the PYTHONPATH line goes, following the amended statement of
    the injection rule rather than the code: in the section opened by
    the first [[Service]] header, immediately before the next section
    header if there is one, and otherwise immediately after the
    [[Service]] header. *)
Fixpoint insert_before_header (x : string) (lines : list string)
  : option (list string) :=
  match lines with
  | [] => None
  | l :: r =>
      if is_section_line l then Some (x :: l :: r)
      else match insert_before_header x r with
           | Some r' => Some (l :: r')
           | None => None
           end
  end.

Fixpoint place_pythonpath (x : string) (lines : list string) : list string :=
  match lines with
  | [] => []
  | l :: r =>
      if is_service_line l then
        match insert_before_header x r with
        | Some r' => l :: r'
        | None => l :: x :: r
        end
      else l :: place_pythonpath x r
  end.

(** Number of [Environment=] lines that mention PYTHONPATH. *)
Definition count_pythonpath (lines : list string) : nat :=
  List.length (filter is_pythonpath_line lines).

(** Reading the lines with the flag [in_service], a PYTHONPATH line is
    met before any header that closes a [[Service]] section. *)
Fixpoint covered (in_service : bool) (lines : list string) : bool :=
  match lines with
  | [] => false
  | l :: r =>
      if is_service_line l then covered true r
      else if is_section_line l then (if in_service then false else covered false r)
      else if is_pythonpath_line l then true
      else covered in_service r
  end.

Definition no_newline (s : string) : Prop := mem_char newline s = false.


End UnitSpec.

(** ** Remote ends used in the concrete runs *)

Module Remotes.
Import SSH.

(** A remote end that answers every command with one fixed reply. *)
Definition constant_client (r : ChannelReply) : Client :=
  {| respond := fun _ _ _ => r |}.

Definition connected_to (cl : Client) : RemoteExecutor :=
  {| ssh := {| client := Some cl; _connected := true; channel := [] |} |}.

(** A remote [find] that prints one match. *)
Definition finds_one : Client :=
  constant_client (Reply ("src/a/x.py" ++ PyStr.nl) "" 0).

End Remotes.

(** ** Table backends used in the concrete runs *)

Module Backends.
Import Table.

Definition empty_listing : string -> list string := fun _ => [].

(** Every command fails: the encryption tool is not installed. *)
Definition no_pyarmor : Backend :=
  {| listing := empty_listing; directories := []; files := [];
     answers := fun _ => (false, "", "pyarmor: command not found");
     sudo_answers := fun _ _ => (false, "", "sudo: a password is required");
     writable := true |}.

(** Every privileged command succeeds silently. *)
Definition sudo_ok : Backend :=
  {| listing := empty_listing; directories := []; files := [];
     answers := fun _ => (true, "", "");
     sudo_answers := fun _ _ => (true, "", "");
     writable := true |}.

(** The move succeeds; reload and restart fail with a message on
    stderr. *)
Definition restart_fails : Backend :=
  {| listing := empty_listing; directories := []; files := [];
     answers := fun _ => (true, "", "");
     sudo_answers := fun cmd _ =>
       if PyStr.startswith "mv " cmd then (true, "", "")
       else (false, "", "Failed to restart app.service: Unit app.service not found.");
     writable := true |}.

(** The privileged move is refused. *)
Definition move_fails : Backend :=
  {| listing := empty_listing; directories := []; files := [];
     answers := fun _ => (true, "", "");
     sudo_answers := fun _ _ => (false, "", "mv: cannot move: Permission denied");
     writable := true |}.

(** A dist folder holding the runtime package and the project [app]. *)
Definition dist_tree : Backend :=
  {| listing := fun path =>
       if (path =? "/opt/dist") || (path =? "/opt_dist")
       then ["pyarmor_runtime_000000"; "app"] else [];
     directories := ["/opt/dist"; "/opt/dist/pyarmor_runtime_000000"; "/opt/dist/app";
                     "/opt_dist"; "/opt_dist/pyarmor_runtime_000000"; "/opt_dist/app"];
     files := [];
     answers := fun _ => (true, "", "");
     sudo_answers := fun _ _ => (true, "", "");
     writable := true |}.

(** The tab before any unit file is parsed, pointed at that dist folder. *)
Definition fresh_tab (user : string) : Unit.ServiceConfigTab :=
  {| Unit.executor := dist_tree;
     Unit.current_service_config := Unit.empty_config;
     Unit.txt_current_config := "";
     Unit.input_encrypted_folder := "/opt/dist";
     Unit.input_user := user;
     Unit.combo_service := "app.service" |}.

Definition unit_path : string := "/etc/systemd/system/app.service".

(** A unit file whose [[Service]] section is followed by another
    section. *)
Definition app_unit : string :=
  PyStr.join PyStr.nl
    [ "[Unit]";
      "Description=App";
      "";
      "[Service]";
      "WorkingDirectory=/srv/app/backend";
      "ExecStart=/usr/bin/python3 main.py --port 8000";
      "Restart=always";
      "";
      "[Install]";
      "WantedBy=multi-user.target" ].





End Backends.

(** ** Further vocabulary for the parser *)

Module ParserSpec.
Import PyStr Unit UnitSpec.

Definition is_environment_line (l : string) : bool :=
  startswith "Environment=" (strip l).

(** The value on the last line that passes [is_key], and the empty string
    when no line does. *)
Definition last_value (is_key : string -> bool) (lines : list string) : string :=
  match rev (filter is_key lines) with
  | l :: _ => value_of (strip l)
  | [] => ""
  end.

(** The four directives that hold one value, with the field each fills. *)
Definition scalar_keys : list (string * (ServiceConfig -> string)) :=
  [ ("WorkingDirectory", WorkingDirectory);
    ("ExecStart", ExecStart);
    ("User", User);
    ("Group", Group) ].

Definition is_key_line (key l : string) : bool := startswith (key ++ "=") (strip l).

End ParserSpec.

(** ** Further unit files for the concrete runs *)

Module Units.

(** A unit that sets every directive the transformer knows. *)
Definition full_unit : string :=
  PyStr.join PyStr.nl
    [ "[Unit]";
      "Description=App";
      "[Service]";
      "User=deploy";
      "Group=deploy";
      "Environment=PYTHONPATH=/srv/app";
      "Environment=PORT=8000";
      "  WorkingDirectory=/srv/app/backend";
      "ExecStart=/usr/bin/python3 main.py --port=8000";
      "[Install]";
      "WantedBy=multi-user.target" ].

End Units.

(** ** [ServiceConfigTab]: changing the service and applying *)

Module Apply.
Import PyStr Unit Worker Pipelines.

Section Tab.
Context {W : Type} `{CommandExecutor W}.

(** [on_service_changed], the slot of the selector's [currentTextChanged]:
    the selector already holds [service_name]; the shown text and the
    parsed dictionary are cleared. *)
Definition on_service_changed (self : @ServiceConfigTab W) (service_name : string)
  : @ServiceConfigTab W :=
  {| executor := executor self;
     current_service_config := empty_config;
     txt_current_config := "";
     input_encrypted_folder := input_encrypted_folder self;
     input_user := input_user self;
     combo_service := service_name |}.

(** [apply_changes], given the text of the password field and the answer
    to the confirmation box.  [None] stands for the early returns, after
    which no worker exists; otherwise the worker's run on the tab's
    executor is given. *)
Definition apply_changes (self : ServiceConfigTab) (sudo_pass : string)
    (confirmed : bool) : option (bool * W * list Event) :=
  let service_name := combo_service self in
  let dist_folder := input_encrypted_folder self in
  if negb (negb (service_name =? "") && negb (dist_folder =? "")
           && negb (sudo_pass =? "")) then None
  else if negb (file_exists (executor self) dist_folder) then None
  else
    let new_config := generate_new_service_content self in
    if negb confirmed then None
    else Some (service_config_run service_name new_config sudo_pass (executor self)).

End Tab.

(** The files a transcript wrote, with their contents. *)
Fixpoint writes (t : list Event) : list (string * string) :=
  match t with
  | [] => []
  | WriteFile path content :: r => (path, content) :: writes r
  | _ :: r => writes r
  end.

(** The secrets a transcript handed to the executor. *)
Fixpoint secrets (t : list Event) : list string :=
  match t with
  | [] => []
  | RunSudoCommand _ sudo_pass :: r => sudo_pass :: secrets r
  | _ :: r => secrets r
  end.

(** The unprivileged commands of a transcript. *)
Fixpoint plain_commands (t : list Event) : list string :=
  match t with
  | [] => []
  | RunCommand cmd :: r => cmd :: plain_commands r
  | _ :: r => plain_commands r
  end.

End Apply.

(** ** [SSHConnection] with its SFTP channel, and [LocalExecutor] *)

Module Session.
Import PyStr SSH.

(** The SFTP sub-channel as the methods use it.  Each operation gives its
    value, or [None] (for writing, [false]) where paramiko raises;
    [sftp_stat] gives whether the path is a directory. *)
Record SFTP : Type := {
  sftp_read : string -> option string;
  sftp_write : string -> string -> bool;
  sftp_stat : string -> option bool;
  sftp_listdir : string -> option (list string)
}.

(** All fields of [SSHConnection]: the command side modelled above, and
    [sftp], [host], [username]. *)
Record Connection : Type := {
  link : SSHConnection;
  sftp : option SFTP;
  host : option string;
  username : option string
}.

(** [SSHConnection.__init__] *)
Definition init : Connection :=
  {| link := {| client := None; _connected := false; channel := [] |};
     sftp := None; host := None; username := None |}.

(** What the network does to [connect]: both channels open, or
    [client.connect] raises, or [client.open_sftp] raises.  In each case
    the new paramiko client is the one [self.client] was set to. *)
Inductive ConnectOutcome : Type :=
| Established (cl : Client) (sf : SFTP)
| ConnectRaised (cl : Client) (msg : string)
| SftpRaised (cl : Client) (msg : string).

(** [SSHConnection.connect]: [inr true] on success, [inl msg] for the
    exception raised.  Password and port only reach paramiko. *)
Definition connect (ssh_available : bool) (self : Connection)
    (net : ConnectOutcome) (host_ username_ : string)
  : (string + bool) * Connection :=
  if negb ssh_available
  then (inl "paramiko not installed. Run: pip install paramiko", self)
  else
    match net with
    | Established cl sf =>
        (inr true,
         {| link := {| client := Some cl; _connected := true;
                       channel := channel (link self) |};
            sftp := Some sf; host := Some host_; username := Some username_ |})
    | ConnectRaised cl msg | SftpRaised cl msg =>
        (inl msg,
         {| link := {| client := Some cl; _connected := false;
                       channel := channel (link self) |};
            sftp := sftp self; host := host self; username := username self |})
    end.

(** [SSHConnection.disconnect] *)
Definition disconnect (self : Connection) : Connection :=
  {| link := {| client := None; _connected := false;
                channel := channel (link self) |};
     sftp := None; host := None; username := None |}.

Definition is_connected (self : Connection) : bool := SSH.is_connected (link self).

Definition with_link {A : Type} (self : Connection) (r : A * SSHConnection)
  : A * Connection :=
  (fst r, {| link := snd r; sftp := sftp self; host := host self;
             username := username self |}).

Definition exec_command (self : Connection) (cmd : string) (get_pty : bool)
  : Result * Connection :=
  with_link self (SSH.exec_command (link self) cmd get_pty).

Definition exec_sudo_command (self : Connection) (cmd sudo_pass : string)
  : Result * Connection :=
  with_link self (SSH.exec_sudo_command (link self) cmd sudo_pass).

(** [SSHConnection.read_file] *)
Definition read_file (self : Connection) (remote_path : string) : option string :=
  if negb (is_connected self) then None
  else match sftp self with
       | Some sf => sftp_read sf remote_path
       | None => None
       end.

(** [SSHConnection.write_file] *)
Definition write_file (self : Connection) (remote_path content : string) : bool :=
  if negb (is_connected self) then false
  else match sftp self with
       | Some sf => sftp_write sf remote_path content
       | None => false
       end.

(** [SSHConnection.file_exists] *)
Definition file_exists (self : Connection) (remote_path : string) : bool :=
  if negb (is_connected self) then false
  else match sftp self with
       | Some sf => match sftp_stat sf remote_path with
                    | Some _ => true
                    | None => false
                    end
       | None => false
       end.

(** [SSHConnection.list_dir] *)
Definition list_dir (self : Connection) (remote_path : string) : list string :=
  if negb (is_connected self) then []
  else match sftp self with
       | Some sf => match sftp_listdir sf remote_path with
                    | Some names => names
                    | None => []
                    end
       | None => []
       end.

(** [SSHConnection.is_dir] *)
Definition is_dir (self : Connection) (remote_path : string) : bool :=
  if negb (is_connected self) then false
  else match sftp self with
       | Some sf => match sftp_stat sf remote_path with
                    | Some d => d
                    | None => false
                    end
       | None => false
       end.

(** [RemoteExecutor] over the whole connection, as an executor. *)
#[export] Instance remote_executor : CommandExecutor Connection := {
  run_command cmd self := exec_command self cmd false;
  run_sudo_command cmd sudo_pass self := exec_sudo_command self cmd sudo_pass;
  read_file self path := read_file self path;
  write_file path content self := (write_file self path content, self);
  file_exists self path := file_exists self path;
  list_dir self path := list_dir self path;
  is_dir self path := is_dir self path
}.





End Session.

(** ** [ServiceConfigTab.load_services]: the entries of the selector *)

Module Services.
Import PyStr Unit.

Definition cons_nonempty (w : string) (ws : list string) : list string :=
  if w =? "" then ws else w :: ws.

(** The run of non-blank characters at the head of [s] (empty when [s]
    begins with a blank), and the words after it. *)
Fixpoint split_ws_from (s : string) : string * list string :=
  match s with
  | "" => ("", [])
  | String c r =>
      let '(w, ws) := split_ws_from r in
      if isspace c then ("", cons_nonempty w ws) else (String c w, ws)
  end.

(** [s.split()]: the maximal runs of non-blank characters, in order. *)
Definition split_ws (s : string) : list string :=
  let '(w, ws) := split_ws_from s in cons_nonempty w ws.

Fixpoint insert_sorted (x : string) (l : list string) : list string :=
  match l with
  | [] => [x]
  | y :: r => if String.leb x y then x :: l else y :: insert_sorted x r
  end.

(** [sorted(ls)] on strings: ascending in the order of the code points,
    which on UTF-8 text is the order of the bytes. *)
Definition sorted (ls : list string) : list string := fold_right insert_sorted [] ls.

Definition list_unit_files : string :=
  "systemctl list-unit-files --type=service --plain --no-legend".

(** The body of the loop over the lines of the listing. *)
Definition collect (services : list string) (line : string) : list string :=
  if negb (line =? "") then
    match split_ws line with
    | service_name :: _ =>
        if negb (service_name =? "") && endswith ".service" service_name
        then app services [service_name]
        else services
    | [] => services
    end
  else services.

Section Tab.
Context {W : Type} `{CommandExecutor W}.

(** [load_services]: the entries put into the selector, and the executor
    after the listing command.  The text of the selector's edit field is
    not modelled. *)
Definition load_services (self : @ServiceConfigTab W) : list string * W :=
  let '((success, stdout, _), w) := run_command list_unit_files (executor self) in
  let services :=
    if success then fold_left collect (split newline (strip stdout)) [] else [] in
  (sorted services, w).

End Tab.

Fixpoint no_blank (s : string) : bool :=
  match s with
  | "" => true
  | String c r => negb (isspace c) && no_blank r
  end.

Fixpoint blank (s : string) : bool :=
  match s with
  | "" => true
  | String c r => isspace c && blank r
  end.

(** [rest] is empty or begins with a blank. *)
Definition ends_word (rest : string) : bool :=
  match rest with
  | "" => true
  | String c _ => isspace c
  end.

(** [name] is the first word of [line]: blanks, then [name], then the end
    of the line or a blank. *)
Definition first_word (line name : string) : Prop :=
  exists pre rest,
    line = pre ++ name ++ rest
    /\ blank pre = true /\ no_blank name = true /\ name <> ""
    /\ ends_word rest = true.

End Services.

(** ** Further backends and sessions for the concrete runs *)

Module Fixtures.
Import Table.

(** Commands succeed, but no file can be written. *)
Definition read_only : Backend :=
  {| listing := Backends.empty_listing; directories := []; files := [];
     answers := fun _ => (true, "", "");
     sudo_answers := fun _ _ => (true, "", "");
     writable := false |}.

(** An SFTP channel on which every operation raises. *)
Definition failing_sftp : Session.SFTP :=
  {| Session.sftp_read := fun _ => None;
     Session.sftp_write := fun _ _ => false;
     Session.sftp_stat := fun _ => None;
     Session.sftp_listdir := fun _ => None |}.

Definition quiet_client : SSH.Client := Remotes.constant_client (SSH.Reply "" "" 0).

(** A connection after a successful [connect]. *)
Definition open_session : Session.Connection :=
  snd (Session.connect true Session.init
         (Session.Established quiet_client failing_sftp) "10.0.0.5" "deploy").

(** A connection after a [connect] that timed out. *)
Definition failed_session : Session.Connection :=
  snd (Session.connect true Session.init
         (Session.ConnectRaised quiet_client "timed out") "10.0.0.5" "deploy").


End Fixtures.

(** * Properties *)

(** ** Sample evaluations of the string and path operations *)

Example strip_ex : PyStr.strip "  [Service] " = "[Service]".
Proof. reflexivity. Qed.

Example split_ex : PyStr.split "/" "/a/P/s" = [""; "a"; "P"; "s"].
Proof. reflexivity. Qed.

Example dirname_ex : PosixPath.dirname "src/**/*.py" = "src/**".
Proof. reflexivity. Qed.

Example basename_ex : PosixPath.basename "src/**/*.py" = "*.py".
Proof. reflexivity. Qed.

Example join_ex : PosixPath.join "/d" "P" = "/d/P".
Proof. reflexivity. Qed.

(** ** Remote commands and the PATH prefix *)

Module SSHFacts.
Import PyStr SSH Remotes.



Lemma sent_during_same (self : SSHConnection) : sent_during self self = [].
Proof. unfold sent_during. apply skipn_all. Qed.


(** Without a connection nothing is sent and the call fails. *)
Lemma exec_command_not_connected (self : SSHConnection) (cmd : string) (get_pty : bool) :
  is_connected self = false ->
  exec_command self cmd get_pty = ((false, "", "Not connected to SSH"), self).
Proof. intros Hc. unfold exec_command. rewrite Hc. reflexivity. Qed.



(** The leaf that [glob_files] gives to [find] has no separator: the
    pattern is cut at its last slash. *)
Lemma basename_no_slash (p : string) :
  mem_char slash (PosixPath.basename p) = false.
Proof.
  induction p as [|c r IH]; simpl; auto.
  destruct (mem_char slash r) eqn:Hr; auto.
  destruct (Ascii.eqb c slash) eqn:Hc; auto.
  simpl. now rewrite Hc, Hr.
Qed.

(** C9, as stated, fails: a pattern whose intended leaf [**/*.py] holds a
    separator is cut into [src/**] and [*.py], and the matches that the
    remote [find] prints are returned. *)
Lemma remote_glob_nested_leaf_not_empty :
  mem_char slash "**/*.py" = true
  /\ fst (glob_files (connected_to finds_one) ("src" ++ "/" ++ "**/*.py"))
     = ["src/a/x.py"].
Proof. split; reflexivity. Qed.

(** C9, amended: [glob_files] is total; the leaf pattern it passes to
    [find] never contains a separator; and its result is the list of
    lines of the trimmed output when the remote [find] exits with 0 and
    prints something other than blanks, and empty in every other case
    (non-zero exit, blank output, an exception on the channel). *)
Theorem remote_glob_result (self : RemoteExecutor) (cl : Client) (pattern : string) :
  client (ssh self) = Some cl ->
  _connected (ssh self) = true ->
  mem_char slash (PosixPath.basename pattern) = false
  /\ fst (glob_files self pattern)
     = match respond cl (channel (ssh self))
               (path_prefix ++ "find " ++ PosixPath.dirname pattern
                ++ " -maxdepth 1 -name '" ++ PosixPath.basename pattern
                ++ "' 2>/dev/null") false with
       | Reply out _ exit_code =>
           if Z.eqb exit_code 0 && negb (strip out =? "")
           then split newline (strip out)
           else []
       | Raised _ => []
       end.
Proof.
  intros Hcl Hconn. split; [apply basename_no_slash|].
  unfold glob_files, exec_command, is_connected.
  rewrite Hcl, Hconn. cbn [andb negb].
  destruct (respond cl _ _ false) as [out err code|msg].
  - destruct (Z.eqb code 0 && negb (strip out =? "")); reflexivity.
  - reflexivity.
Qed.

Lemma remote_glob_result_witness :
  fst (glob_files (connected_to finds_one) "/srv/app/*.py") = ["src/a/x.py"].
Proof.
  exact (proj2 (remote_glob_result (connected_to finds_one) finds_one
                  "/srv/app/*.py" eq_refl eq_refl)).
Defined.

(** An unconnected remote backend globs to nothing. *)
Lemma remote_glob_not_connected (self : RemoteExecutor) (pattern : string) :
  is_connected (ssh self) = false -> fst (glob_files self pattern) = [].
Proof.
  intros Hc. unfold glob_files. rewrite exec_command_not_connected by assumption.
  reflexivity.
Qed.

End SSHFacts.

(** ** The two pipelines *)

Module PipelineFacts.
Import Worker Pipelines Backends.

Section Generic.
Context {W : Type} `{CommandExecutor W}.

Lemma log_if_nonempty_run (s line : string) (w : W) :
  log_if_nonempty s line w
  = (tt, w, if negb (s =? "") then [Log line] else []).
Proof. unfold log_if_nonempty. destruct (negb (s =? "")); reflexivity. Qed.

(** One step of symbolic execution of a worker: name the answer of the
    next executor call made in a known backend state. *)
Ltac worker_step :=
  cbn beta iota zeta delta [fst snd negb];
  match goal with
  | |- context [log_if_nonempty ?s ?l ?w] =>
      is_var w; rewrite (log_if_nonempty_run s l w)
  | |- context [run_command ?c ?w] =>
      is_var w; destruct (run_command c w) as [[[? ?] ?] ?]
  | |- context [run_sudo_command ?c ?p ?w] =>
      is_var w; destruct (run_sudo_command c p w) as [[[? ?] ?] ?]
  | |- context [write_file ?f ?c ?w] =>
      is_var w; destruct (write_file f c w) as [? ?]
  | |- context [if ?b then _ else _] => is_var b; destruct b
  | |- context [if negb ?b then _ else _] => is_var b; destruct b
  end.

Ltac worker_run :=
  unfold outcome, transcript, bind, log, ret, exec_run, exec_sudo, exec_write,
    exec_exists;
  repeat worker_step.

Ltac worker_done :=
  repeat match goal with
         | |- context [negb (?s =? "")] => destruct (negb (s =? ""))
         end;
  repeat split; reflexivity.

(** C6: when the configuration command [pyarmor cfg data_files=*]
    fails, the encryption pipeline finishes with [(False, '')] and the
    configuration command is the only command it issued: neither the
    [rm -rf] of the dist folder nor [pyarmor gen] is run. *)
Theorem encryption_stops_when_configuration_fails (folder : string) (w : W) :
  SSH.succeeded (fst (run_command "pyarmor cfg data_files=*" w)) = false ->
  outcome (encryption_run folder w) = (false, "")
  /\ commands (transcript (encryption_run folder w))
     = ["pyarmor cfg data_files=*"].
Proof.
  unfold encryption_run. intros Hfail.
  destruct (run_command "pyarmor cfg data_files=*" w) as [[[success out] err] w1] eqn:E.
  cbn in Hfail; subst success.
  unfold outcome, transcript, bind, log, ret, exec_run. rewrite E.
  rewrite !log_if_nonempty_run. cbn [negb].
  worker_done.
Qed.

(** C7, amended: once the unit file is written, a failed privileged move
    ends the deployment with [False] after that single command; a
    successful move is followed by the daemon reload and the restart,
    in this order, and the deployment ends with [True] whatever those
    two commands return. *)
Theorem deployment_depends_on_move_only
    (service_name new_config sudo_pass : string) (w : W) :
  fst (write_file ("/tmp/" ++ service_name) new_config w) = true ->
  let w1 := snd (write_file ("/tmp/" ++ service_name) new_config w) in
  let mv := "mv " ++ ("/tmp/" ++ service_name) ++ " "
            ++ ("/etc/systemd/system/" ++ service_name) in
  let run := service_config_run service_name new_config sudo_pass w in
  (if SSH.succeeded (fst (run_sudo_command mv sudo_pass w1))
   then outcome run = true
        /\ commands (transcript run)
           = [mv; "systemctl daemon-reload"; "systemctl restart " ++ service_name]
   else outcome run = false /\ commands (transcript run) = [mv]).
Proof.
  intros Hw. cbv zeta. unfold service_config_run.
  destruct (write_file ("/tmp/" ++ service_name) new_config w) as [written w1] eqn:E.
  cbn in Hw; subst written. cbn [snd].
  unfold outcome, transcript, bind, log, ret, exec_write. rewrite E.
  unfold exec_sudo, SSH.succeeded.
  repeat worker_step; worker_done.
Qed.


End Generic.

Import Table.

Lemma encryption_stops_when_configuration_fails_witness :
  outcome (encryption_run "/srv/app" no_pyarmor) = (false, "")
  /\ commands (transcript (encryption_run "/srv/app" no_pyarmor))
     = ["pyarmor cfg data_files=*"].
Proof.
  exact (encryption_stops_when_configuration_fails "/srv/app" no_pyarmor eq_refl).
Defined.

Lemma deployment_depends_on_move_only_witness :
  outcome (service_config_run "app.service" "[Service]" "pw" restart_fails) = true
  /\ commands (transcript (service_config_run "app.service" "[Service]" "pw" restart_fails))
     = ["mv /tmp/app.service /etc/systemd/system/app.service";
        "systemctl daemon-reload"; "systemctl restart app.service"].
Proof.
  exact (deployment_depends_on_move_only "app.service" "[Service]" "pw"
           restart_fails eq_refl).
Defined.


(** C7, as stated, fails on the logging: with the move accepted and both
    the reload and the restart failing with a message on stderr, the log
    is line for line the log of a run in which everything succeeded. *)
Lemma deployment_restart_failure_not_logged :
  SSH.succeeded (fst (run_sudo_command "systemctl daemon-reload" "pw" restart_fails)) = false
  /\ SSH.succeeded (fst (run_sudo_command "systemctl restart app.service" "pw" restart_fails))
     = false
  /\ log_lines (transcript (service_config_run "app.service" "[Service]" "pw" restart_fails))
     = log_lines (transcript (service_config_run "app.service" "[Service]" "pw" sudo_ok))
  /\ log_lines (transcript (service_config_run "app.service" "[Service]" "pw" restart_fails))
     = [ "--- Updating Service Configuration ---";
         "Writing service file to: /tmp/app.service";
         "Generated service file at: /tmp/app.service";
         "Moving to: /etc/systemd/system/app.service";
         "Reloading systemd daemon...";
         "Restarting app.service...";
         check_mark ++ " Service configuration updated successfully!" ].
Proof. repeat split; reflexivity. Qed.

End PipelineFacts.

(** ** Facts about the string operations *)

Module PyStrFacts.
Import PyStr UnitSpec.

Lemma split_not_nil (sep : ascii) (s : string) : split sep s <> [].
Proof.
  destruct s as [|a r]; simpl; [discriminate|].
  destruct (Ascii.eqb a sep); [discriminate|].
  destruct (split sep r); discriminate.
Qed.

Lemma concat_cons_char (sep : string) (a : ascii) (h : string) (t : list string) :
  String.concat sep (String a h :: t) = String a (String.concat sep (h :: t)).
Proof. destruct t; reflexivity. Qed.

(** Joining what [split] produced gives the text back. *)
Lemma join_split (s : string) : join nl (split newline s) = s.
Proof.
  unfold join. induction s as [|a r IH]; [reflexivity|].
  simpl split. destruct (Ascii.eqb a newline) eqn:E.
  - apply Ascii.eqb_eq in E; subst a.
    destruct (split newline r) as [|h t] eqn:Er; [now apply split_not_nil in Er|].
    change (String.concat nl ("" :: h :: t)) with (String newline (String.concat nl (h :: t))).
    now rewrite IH.
  - destruct (split newline r) as [|h t] eqn:Er; [now apply split_not_nil in Er|].
    rewrite concat_cons_char. now rewrite IH.
Qed.

Lemma split_no_sep (sep : ascii) (s : string) :
  mem_char sep s = false -> split sep s = [s].
Proof.
  induction s as [|a r IH]; simpl; [reflexivity|].
  intros Hm. apply orb_false_iff in Hm as [Ha Hr].
  rewrite Ha, (IH Hr). reflexivity.
Qed.

Lemma split_app_sep (sep : ascii) (x r : string) :
  mem_char sep x = false ->
  split sep (x ++ String sep r) = x :: split sep r.
Proof.
  induction x as [|a x IH]; simpl; intros Hm.
  - now rewrite Ascii.eqb_refl.
  - apply orb_false_iff in Hm as [Ha Hx]. rewrite Ha, (IH Hx). reflexivity.
Qed.

(** Splitting a join of newline-free lines gives the lines back. *)
Lemma split_join (ls : list string) :
  ls <> [] ->
  Forall (fun l => mem_char newline l = false) ls ->
  split newline (join nl ls) = ls.
Proof.
  unfold join. induction ls as [|x ls IH]; [congruence|].
  intros _ Hall. inversion Hall as [|? ? Hx Hls]; subst.
  destruct ls as [|y ls'].
  - simpl. now apply split_no_sep.
  - change (String.concat nl (x :: y :: ls'))
      with (x ++ String newline (String.concat nl (y :: ls'))).
    rewrite split_app_sep by assumption.
    f_equal. apply IH; [discriminate|assumption].
Qed.

Lemma split_lines_no_sep (sep : ascii) (s : string) :
  Forall (fun l => mem_char sep l = false) (split sep s).
Proof.
  induction s as [|a r IH]; simpl.
  - constructor; [reflexivity|constructor].
  - destruct (Ascii.eqb a sep) eqn:E.
    + constructor; [reflexivity|assumption].
    + destruct (split sep r) as [|h t]; [repeat constructor; simpl; now rewrite E|].
      inversion IH; subst. constructor; [simpl; now rewrite E|assumption].
Qed.

Lemma rstrip_app_no_space (p x : string) :
  no_space p = true -> rstrip (p ++ x) = p ++ rstrip x.
Proof.
  induction p as [|c p IH]; simpl; intros Hp; [reflexivity|].
  apply andb_true_iff in Hp as [Hc Hp]. rewrite (IH Hp).
  apply negb_true_iff in Hc. rewrite Hc.
  destruct (p ++ rstrip x); reflexivity.
Qed.

(** Stripping keeps a leading blank-free word. *)
Lemma strip_app_no_space (p x : string) :
  no_space p = true -> p <> "" -> strip (p ++ x) = p ++ rstrip x.
Proof.
  intros Hp Hne. unfold strip. destruct p as [|c p]; [congruence|].
  simpl in Hp. apply andb_true_iff in Hp as [Hc Hp'].
  simpl lstrip. apply negb_true_iff in Hc. rewrite Hc.
  change (String c (p ++ x)) with (String c p ++ x).
  apply rstrip_app_no_space. simpl. now rewrite Hc, Hp'.
Qed.

Lemma startswith_app (p x : string) : startswith p (p ++ x) = true.
Proof. induction p as [|c p IH]; simpl; [reflexivity|]. now rewrite Ascii.eqb_refl. Qed.

(** A text begins with a newline-free word exactly when its first line
    does. *)
Lemma startswith_first_line (p l r : string) :
  mem_char newline p = false ->
  startswith p (l ++ String newline r) = startswith p l.
Proof.
  revert l. induction p as [|c p IH]; intros l Hp; [now destruct l|].
  simpl in Hp. apply orb_false_iff in Hp as [Hc Hp].
  destruct l as [|a l]; simpl.
  - rewrite Hc. reflexivity.
  - now rewrite IH.
Qed.

(** *** Paths *)


Lemma mem_char_app (c : ascii) (a b : string) :
  mem_char c (a ++ b) = mem_char c a || mem_char c b.
Proof. induction a as [|x a IH]; simpl; [reflexivity|]. now rewrite IH, orb_assoc. Qed.






Lemma append_assoc (a b c : string) : (a ++ b) ++ c = a ++ b ++ c.
Proof. induction a as [|x a IH]; simpl; [reflexivity|]. now rewrite IH. Qed.



(** *** Characters that were not there do not appear *)

Lemma mem_char_lstrip (c : ascii) (s : string) :
  mem_char c s = false -> mem_char c (lstrip s) = false.
Proof.
  induction s as [|a r IH]; [reflexivity|].
  intros Hm. cbn [lstrip]. destruct (isspace a); [|assumption].
  cbn [mem_char] in Hm. apply orb_false_iff in Hm as [_ Hr]. now apply IH.
Qed.

Lemma mem_char_rstrip (c : ascii) (s : string) :
  mem_char c s = false -> mem_char c (rstrip s) = false.
Proof.
  induction s as [|a r IH]; [reflexivity|].
  cbn [mem_char]. intros Hm. apply orb_false_iff in Hm as [Ha Hr].
  specialize (IH Hr). cbn [rstrip]. destruct (rstrip r) as [|b r'].
  - destruct (isspace a); [reflexivity|]. cbn [mem_char]. now rewrite Ha.
  - cbn [mem_char] in *. now rewrite Ha, IH.
Qed.

Lemma mem_char_strip (c : ascii) (s : string) :
  mem_char c s = false -> mem_char c (strip s) = false.
Proof. intros Hm. unfold strip. now apply mem_char_rstrip, mem_char_lstrip. Qed.

Lemma mem_char_split1 (c sep : ascii) (s : string) :
  mem_char c s = false ->
  Forall (fun x => mem_char c x = false) (split1 sep s).
Proof.
  induction s as [|a r IH]; [repeat constructor|].
  cbn [mem_char]. intros Hm. apply orb_false_iff in Hm as [Ha Hr].
  cbn [split1]. destruct (Ascii.eqb a sep).
  - repeat constructor. assumption.
  - specialize (IH Hr). destruct (split1 sep r) as [|h t].
    + repeat constructor. cbn [mem_char]. now rewrite Ha.
    + inversion IH; subst. constructor; [|assumption].
      cbn [mem_char]. now rewrite Ha.
Qed.

Lemma mem_char_split (c sep : ascii) (s : string) :
  mem_char c s = false ->
  Forall (fun x => mem_char c x = false) (split sep s).
Proof.
  induction s as [|a r IH]; [repeat constructor|].
  cbn [mem_char]. intros Hm. apply orb_false_iff in Hm as [Ha Hr].
  specialize (IH Hr). cbn [split]. destruct (Ascii.eqb a sep).
  - constructor; [reflexivity|assumption].
  - destruct (split sep r) as [|h t].
    + repeat constructor. cbn [mem_char]. now rewrite Ha.
    + inversion IH; subst. constructor; [|assumption].
      cbn [mem_char]. now rewrite Ha.
Qed.

Lemma mem_char_replace (c a b : ascii) (s : string) :
  Ascii.eqb b c = false -> mem_char c s = false ->
  mem_char c (replace a b s) = false.
Proof.
  intros Hb. induction s as [|x r IH]; [reflexivity|].
  cbn [mem_char replace]. intros Hm. apply orb_false_iff in Hm as [Hx Hr].
  rewrite (IH Hr). destruct (Ascii.eqb x a); now rewrite ?Hb, ?Hx.
Qed.

Lemma mem_char_join (c : ascii) (sep : string) (ls : list string) :
  mem_char c sep = false ->
  Forall (fun x => mem_char c x = false) ls ->
  mem_char c (join sep ls) = false.
Proof.
  intros Hsep. unfold join. induction ls as [|x ls IH]; [reflexivity|].
  intros Hall. inversion Hall; subst. destruct ls as [|y ls']; [assumption|].
  change (String.concat sep (x :: y :: ls'))
    with (x ++ sep ++ String.concat sep (y :: ls')).
  rewrite !mem_char_app. rewrite IH by assumption.
  match goal with Hx : mem_char c x = false |- _ => now rewrite Hx, Hsep end.
Qed.

Lemma mem_char_posix_join (c : ascii) (a b : string) :
  Ascii.eqb slash c = false ->
  mem_char c a = false -> mem_char c b = false ->
  mem_char c (PosixPath.join a b) = false.
Proof.
  intros Hc Ha Hb. unfold PosixPath.join.
  destruct (startswith "/" b); [assumption|].
  destruct ((a =? "") || endswith "/" a); rewrite !mem_char_app, Ha, Hb;
    [reflexivity|]. cbn [mem_char]. unfold slash in Hc. now rewrite Hc.
Qed.

End PyStrFacts.

(** ** The rewriting loop *)

Module LoopFacts.
Import PyStr Unit UnitSpec PyStrFacts.

Lemma startswith_head (a : ascii) (p s : string) :
  startswith (String a p) s = true -> exists r, s = String a r.
Proof.
  destruct s as [|b r]; simpl; [discriminate|].
  intros E. apply andb_true_iff in E as [E _].
  apply Ascii.eqb_eq in E. subst. eauto.
Qed.

Lemma startswith_head2 (a b : ascii) (p s : string) :
  startswith (String a (String b p)) s = true ->
  exists r, s = String a (String b r).
Proof.
  intros H. destruct (startswith_head _ _ _ H) as [r ->].
  simpl in H. rewrite Ascii.eqb_refl in H.
  destruct (startswith_head b p r H) as [r' ->]. eauto.
Qed.

(** Replace [strip l] in the goal by its first characters and the rest,
    using a test known to hold. *)
Ltac expose_head :=
  match goal with
  | H : startswith (String ?a (String ?b ?p)) (strip ?l) = true |- _ =>
      let r := fresh "r" in
      let E := fresh "E" in
      destruct (startswith_head2 _ _ _ _ H) as [r E];
      rewrite ?H; rewrite ?E; clear E
  | H : startswith (String ?a ?p) (strip ?l) = true |- _ =>
      let r := fresh "r" in
      let E := fresh "E" in
      destruct (startswith_head _ _ _ H) as [r E];
      rewrite ?H; rewrite ?E; clear E
  | H : (strip ?l =? "[Service]") = true |- _ =>
      let E := fresh "E" in
      pose proof (proj1 (String.eqb_eq _ _) H) as E; rewrite ?H; rewrite ?E; clear E
  end.

Ltac split_tests :=
  repeat match goal with
         | H : _ && _ = true |- _ => apply andb_true_iff in H as [? ?]
         end.

Ltac kinds :=
  unfold is_service_line, is_section_line, is_workdir_line, is_user_line,
    is_group_line, is_execstart_line, is_pythonpath_line in *.

(** *** Insertions *)

Section Insertions.
Context {A : Type} (x : A).

Lemma Inserted_refl (l : list A) : Inserted x l l.
Proof. induction l; constructor; assumption. Qed.

Lemma Inserted_app (l1 l1' l2 l2' : list A) :
  Inserted x l1 l1' -> Inserted x l2 l2' ->
  Inserted x (l1 ++ l2)%list (l1' ++ l2')%list.
Proof. induction 1; intros; simpl; auto; constructor; auto. Qed.

Lemma Inserted_trans (l1 l2 l3 : list A) :
  Inserted x l1 l2 -> Inserted x l2 l3 -> Inserted x l1 l3.
Proof.
  intros H12 H23. revert l1 H12.
  induction H23 as [|a l l' H IH|l l' H IH]; intros l1 H12.
  - assumption.
  - inversion H12; subst; constructor; auto.
  - constructor; auto.
Qed.

Lemma Inserted_filter (p : A -> bool) (l l' : list A) :
  p x = false -> Inserted x l l' -> filter p l' = filter p l.
Proof.
  intros Hx. induction 1 as [|a l l' H IH|l l' H IH]; simpl.
  - reflexivity.
  - now rewrite IH.
  - now rewrite Hx.
Qed.

Lemma Inserted_Forall (P : A -> Prop) (l l' : list A) :
  P x -> Inserted x l l' -> Forall P l -> Forall P l'.
Proof.
  intros Hx. induction 1 as [|a l l' H IH|l l' H IH]; intros Hl.
  - constructor.
  - inversion Hl; subst. constructor; auto.
  - constructor; auto.
Qed.

Lemma Inserted_not_nil (l l' : list A) :
  Inserted x l l' -> l <> [] -> l' <> [].
Proof. induction 1; intros; congruence. Qed.


Lemma Inserted_length (l l' : list A) :
  Inserted x l l' -> List.length l <= List.length l'.
Proof. induction 1; simpl; lia. Qed.

End Insertions.

(** *** Counting and covering *)

Section Placing.
Variable x : string.
Hypothesis x_pythonpath : is_pythonpath_line x = true.
Hypothesis x_not_service : is_service_line x = false.
Hypothesis x_not_section : is_section_line x = false.

Lemma count_insert_before_header (lines r' : list string) :
  insert_before_header x lines = Some r' ->
  count_pythonpath r' = S (count_pythonpath lines).
Proof.
  unfold count_pythonpath. revert r'.
  induction lines as [|l r IH]; intros r' E; [discriminate|].
  cbn [insert_before_header] in E. destruct (is_section_line l).
  - inversion E; subst. cbn [filter]. now rewrite x_pythonpath.
  - destruct (insert_before_header x r) as [r''|]; [|discriminate].
    inversion E; subst. cbn [filter].
    destruct (is_pythonpath_line l); cbn [List.length]; now rewrite (IH r'').
Qed.

Lemma count_place_pythonpath (lines : list string) :
  existsb is_service_line lines = true ->
  count_pythonpath (place_pythonpath x lines) = S (count_pythonpath lines).
Proof.
  induction lines as [|l r IH]; [discriminate|].
  cbn [existsb place_pythonpath]. destruct (is_service_line l) eqn:Hs.
  - intros _. destruct (insert_before_header x r) as [r'|] eqn:E.
    + apply count_insert_before_header in E. unfold count_pythonpath in *.
      cbn [filter]. destruct (is_pythonpath_line l); cbn [List.length]; now rewrite E.
    + unfold count_pythonpath. cbn [filter]. rewrite x_pythonpath.
      destruct (is_pythonpath_line l); reflexivity.
  - cbn [orb]. intros Hr. specialize (IH Hr). unfold count_pythonpath in *.
    cbn [filter]. destruct (is_pythonpath_line l); cbn [List.length]; now rewrite IH.
Qed.

Lemma covered_insert_before_header (lines r' : list string) :
  insert_before_header x lines = Some r' -> covered true r' = true.
Proof.
  revert r'. induction lines as [|l r IH]; intros r' E; [discriminate|].
  cbn [insert_before_header] in E. destruct (is_section_line l) eqn:Hh.
  - inversion E; subst. cbn [covered].
    now rewrite x_not_service, x_not_section, x_pythonpath.
  - destruct (insert_before_header x r) as [r''|]; [|discriminate].
    inversion E; subst. cbn [covered]. rewrite Hh.
    destruct (is_service_line l); [now apply IH|].
    destruct (is_pythonpath_line l); [reflexivity|now apply IH].
Qed.

Lemma covered_place_pythonpath (lines : list string) :
  existsb is_service_line lines = true ->
  covered false (place_pythonpath x lines) = true.
Proof.
  induction lines as [|l r IH]; [discriminate|].
  cbn [existsb place_pythonpath]. destruct (is_service_line l) eqn:Hs.
  - intros _. destruct (insert_before_header x r) as [r'|] eqn:E.
    + cbn [covered]. rewrite Hs. now apply covered_insert_before_header in E.
    + cbn [covered]. now rewrite Hs, x_not_service, x_not_section, x_pythonpath.
  - cbn [orb]. intros Hr. cbn [covered]. rewrite Hs.
    destruct (is_section_line l); [now apply IH|].
    destruct (is_pythonpath_line l); [reflexivity|now apply IH].
Qed.

End Placing.

Lemma startswith_join (p x : string) (rest : list string) :
  mem_char newline p = false ->
  startswith p (join nl (x :: rest)) = startswith p x.
Proof.
  intros Hp. destruct rest as [|y rest]; [reflexivity|].
  change (join nl (x :: y :: rest)) with (x ++ String newline (join nl (y :: rest))).
  now apply startswith_first_line.
Qed.

Section Loop.
Variables new_working_dir python_path user : string.

Local Abbreviation rewrite_line' := (rewrite_line new_working_dir python_path user).
Local Abbreviation step' := (step new_working_dir python_path user).
Local Abbreviation run_loop' := (run_loop new_working_dir python_path user).
Local Abbreviation replaced' := (replaced new_working_dir python_path user).

Lemma rewrite_line_step (st : LoopState) (l : string) :
  rewrite_line' st l
  = let '(o, a, i) := step' (pythonpath_added st) (in_service_section st) l in
    {| new_lines := (new_lines st ++ o)%list;
       pythonpath_added := a; in_service_section := i |}.
Proof.
  unfold step, rewrite_line.
  cbn [new_lines pythonpath_added in_service_section].
  repeat match goal with
         | |- context [if ?b then _ else _] => destruct b
         end; reflexivity.
Qed.

Lemma fold_rewrite_line (lines : list string) (st : LoopState) :
  fold_left rewrite_line' lines st
  = let '(o, a, i) := run_loop' (pythonpath_added st) (in_service_section st) lines in
    {| new_lines := (new_lines st ++ o)%list;
       pythonpath_added := a; in_service_section := i |}.
Proof.
  revert st. induction lines as [|l r IH]; intros st.
  - cbn [fold_left run_loop]. rewrite app_nil_r. now destruct st.
  - cbn [fold_left run_loop]. rewrite IH, rewrite_line_step.
    destruct (step' (pythonpath_added st) (in_service_section st) l) as [[o a] i].
    cbn [new_lines pythonpath_added in_service_section].
    destruct (run_loop' a i r) as [[o' a'] i'].
    now rewrite <- app_assoc.
Qed.

(** *** Kinds of lines *)

Lemma strip_workdir (x : string) :
  strip ("WorkingDirectory=" ++ x) = "WorkingDirectory=" ++ rstrip x.
Proof. now apply strip_app_no_space. Qed.

Lemma strip_user (x : string) : strip ("User=" ++ x) = "User=" ++ rstrip x.
Proof. now apply strip_app_no_space. Qed.

Lemma strip_group (x : string) : strip ("Group=" ++ x) = "Group=" ++ rstrip x.
Proof. now apply strip_app_no_space. Qed.

Lemma strip_pythonpath_line (x : string) :
  strip (pythonpath_line x)
  = ("Environment=" ++ dquote ++ "PYTHONPATH=") ++ rstrip (x ++ dquote).
Proof.
  change (pythonpath_line x)
    with (("Environment=" ++ dquote ++ "PYTHONPATH=") ++ (x ++ dquote)).
  now apply strip_app_no_space.
Qed.

Lemma step_cases (added in_service : bool) (l : string) :
  step' added in_service l
  = if is_service_line l then ([l], added, true)
    else if is_section_line l then
           if in_service && negb added
           then ([pythonpath_line python_path; l], true, false)
           else ([l], added, false)
         else ([replaced' l], added || is_pythonpath_line l, in_service).
Proof.
  unfold step, rewrite_line, replaced. kinds.
  cbn [new_lines pythonpath_added in_service_section app].
  destruct (strip l =? "[Service]"); [reflexivity|].
  destruct (startswith "[" (strip l) && endswith "]" (strip l));
    [destruct (in_service && negb added); reflexivity|].
  destruct (startswith "WorkingDirectory=" (strip l)) eqn:Hw.
  { expose_head. cbn. now rewrite orb_false_r. }
  destruct (startswith "User=" (strip l) && negb (user =? "")) eqn:Hu.
  { split_tests. expose_head. cbn. now rewrite orb_false_r. }
  destruct (startswith "Group=" (strip l) && negb (user =? "")) eqn:Hg.
  { split_tests. expose_head. cbn. now rewrite orb_false_r. }
  destruct (startswith "Environment=" (strip l) && contains "PYTHONPATH" (strip l)).
  - now rewrite orb_true_r.
  - now rewrite orb_false_r.
Qed.

(** Case analysis on the branch of the loop body that [replaced]
    stands for.  In each of the four replacing branches the stripped
    new line is put in view and the head of the old one exposed. *)
Ltac replaced_cases l :=
  unfold replaced; kinds;
  destruct (startswith "WorkingDirectory=" (strip l)) eqn:Hw;
  [ rewrite ?strip_workdir; expose_head
  | destruct (startswith "User=" (strip l) && negb (user =? "")) eqn:Hu;
    [ split_tests; rewrite ?strip_user; expose_head
    | destruct (startswith "Group=" (strip l) && negb (user =? "")) eqn:Hg;
      [ split_tests; rewrite ?strip_group; expose_head
      | destruct (startswith "Environment=" (strip l)
                  && contains "PYTHONPATH" (strip l)) eqn:Hp;
        [ rewrite ?strip_pythonpath_line; split_tests; expose_head
        | rewrite ?Hw, ?Hu, ?Hg, ?Hp ] ] ] ].

Lemma replaced_service (l : string) :
  is_service_line l = true -> replaced' l = l.
Proof. intros H. unfold replaced. kinds. expose_head. reflexivity. Qed.

Lemma replaced_section (l : string) :
  is_section_line l = true -> replaced' l = l.
Proof. intros H. unfold replaced. kinds. split_tests. expose_head. reflexivity. Qed.

Lemma replaced_not_rewritten (l : string) :
  rewritten user l = false -> replaced' l = l.
Proof.
  unfold rewritten. intros H.
  apply orb_false_iff in H as [H Hp]. apply orb_false_iff in H as [Hw H].
  unfold replaced. rewrite Hw, Hp.
  destruct (negb (user =? "")); rewrite ?andb_false_r; [|reflexivity].
  rewrite andb_true_r in H. apply orb_false_iff in H as [Hu Hg].
  now rewrite Hu, Hg.
Qed.

Lemma service_of_replaced (l : string) :
  is_service_line (replaced' l) = is_service_line l.
Proof. replaced_cases l; reflexivity. Qed.

Lemma section_of_replaced (l : string) :
  is_section_line (replaced' l) = is_section_line l.
Proof. replaced_cases l; reflexivity. Qed.




Lemma execstart_of_replaced (l : string) :
  is_execstart_line (replaced' l) = is_execstart_line l.
Proof. replaced_cases l; reflexivity. Qed.

Lemma pythonpath_of_replaced (l : string) :
  is_pythonpath_line (replaced' l) = is_pythonpath_line l.
Proof. replaced_cases l; reflexivity. Qed.


Lemma pythonpath_line_kind :
  is_pythonpath_line (pythonpath_line python_path) = true
  /\ is_execstart_line (pythonpath_line python_path) = false
  /\ is_user_line (pythonpath_line python_path) = false
  /\ is_group_line (pythonpath_line python_path) = false
  /\ is_service_line (pythonpath_line python_path) = false
  /\ is_section_line (pythonpath_line python_path) = false.
Proof. kinds. rewrite strip_pythonpath_line. repeat split; reflexivity. Qed.

(** *** The loops as insertions into the replaced lines *)

Lemma run_loop_Inserted (lines : list string) (added in_service : bool) :
  Inserted (pythonpath_line python_path) (map replaced' lines)
    (fst (fst (run_loop' added in_service lines))).
Proof.
  revert added in_service. induction lines as [|l r IH]; intros added in_service.
  - constructor.
  - cbn [run_loop map]. rewrite step_cases.
    destruct (is_service_line l) eqn:Hs.
    + specialize (IH added true). destruct (run_loop' added true r) as [[o a] i].
      rewrite replaced_service by assumption. now constructor.
    + destruct (is_section_line l) eqn:Hh.
      * rewrite replaced_section by assumption.
        destruct (in_service && negb added).
        -- specialize (IH true false).
           destruct (run_loop' true false r) as [[o a] i].
           now do 2 constructor.
        -- specialize (IH added false).
           destruct (run_loop' added false r) as [[o a] i].
           now constructor.
      * specialize (IH (added || is_pythonpath_line l) in_service).
        destruct (run_loop' (added || is_pythonpath_line l) in_service r)
          as [[o a] i].
        now constructor.
Qed.

(** The second loop puts the line after every [[Service]] header. *)
Lemma add_after_service_flat_map (lines : list string) :
  add_after_service python_path lines
  = flat_map (fun l => if is_service_line l
                       then [l; pythonpath_line python_path] else [l]) lines.
Proof.
  unfold add_after_service.
  assert (G : forall acc,
             fold_left
               (fun result_lines line =>
                  if strip line =? "[Service]"
                  then (result_lines ++ [line; pythonpath_line python_path])%list
                  else (result_lines ++ [line])%list) lines acc
             = (acc ++ flat_map (fun l => if is_service_line l
                                          then [l; pythonpath_line python_path]
                                          else [l]) lines)%list).
  { induction lines as [|l r IH]; intros acc; simpl.
    - now rewrite app_nil_r.
    - rewrite IH. unfold is_service_line.
      destruct (strip l =? "[Service]"); now rewrite <- app_assoc. }
  apply (G []).
Qed.

Lemma add_after_service_Inserted (lines : list string) :
  Inserted (pythonpath_line python_path) lines
    (add_after_service python_path lines).
Proof.
  rewrite add_after_service_flat_map.
  induction lines as [|l r IH]; simpl; [constructor|].
  destruct (is_service_line l); simpl; repeat constructor; assumption.
Qed.

(** [generate_lines] in terms of [run_loop]. *)
Lemma generate_lines_run_loop (content : string) :
  generate_lines new_working_dir python_path user content
  = let '(o, a, _) := run_loop' false false (split newline content) in
    if negb a then add_after_service python_path o else o.
Proof.
  unfold generate_lines. rewrite fold_rewrite_line.
  cbn [new_lines pythonpath_added in_service_section app].
  now destruct (run_loop' false false (split newline content)) as [[o a] i].
Qed.

(** The emitted lines are the replaced input lines, in order, with
    PYTHONPATH lines put in between. *)
Lemma generate_lines_Inserted (content : string) :
  Inserted (pythonpath_line python_path)
    (map replaced' (split newline content))
    (generate_lines new_working_dir python_path user content).
Proof.
  rewrite generate_lines_run_loop.
  pose proof (run_loop_Inserted (split newline content) false false) as Hi.
  destruct (run_loop' false false (split newline content)) as [[o a] i].
  cbn [fst] in Hi. destruct a; cbn [negb]; [assumption|].
  eapply Inserted_trans; [eassumption|apply add_after_service_Inserted].
Qed.

(** *** What the rewriting keeps *)

Lemma service_is_section (l : string) :
  is_service_line l = true -> is_section_line l = true.
Proof. intros H. kinds. expose_head. reflexivity. Qed.

Lemma section_not_pythonpath (l : string) :
  is_section_line l = true -> is_pythonpath_line l = false.
Proof. intros H. kinds. split_tests. expose_head. reflexivity. Qed.

Lemma execstart_not_rewritten (l : string) :
  is_execstart_line l = true -> rewritten user l = false.
Proof. intros H. unfold rewritten. kinds. expose_head. reflexivity. Qed.


Lemma filter_execstart_replaced (lines : list string) :
  filter is_execstart_line (map replaced' lines) = filter is_execstart_line lines.
Proof.
  induction lines as [|l r IH]; simpl; [reflexivity|].
  rewrite execstart_of_replaced, IH.
  destruct (is_execstart_line l) eqn:E; [|reflexivity].
  now rewrite replaced_not_rewritten by now apply execstart_not_rewritten.
Qed.

Lemma existsb_map_replaced (p : string -> bool) (lines : list string) :
  (forall l, p (replaced' l) = p l) ->
  existsb p (map replaced' lines) = existsb p lines.
Proof.
  intros Hp. induction lines as [|l r IH]; simpl; [reflexivity|].
  now rewrite Hp, IH.
Qed.



(** *** Where the loop inserts *)

(** Outside a [[Service]] section, and with no header of one ahead,
    the loop only replaces. *)
Lemma run_loop_outside (lines : list string) (added : bool) :
  forallb (fun l => negb (is_service_line l)) lines = true ->
  run_loop' added false lines
  = (map replaced' lines, added || existsb is_pythonpath_line lines, false).
Proof.
  revert added. induction lines as [|l r IH]; intros added Hs.
  - cbn. now rewrite orb_false_r.
  - cbn [forallb] in Hs. apply andb_true_iff in Hs as [Hl Hr].
    apply negb_true_iff in Hl.
    cbn [run_loop map existsb]. rewrite step_cases, Hl.
    destruct (is_section_line l) eqn:Hh.
    + cbn [andb]. rewrite (IH added Hr), (section_not_pythonpath _ Hh).
      now rewrite replaced_section.
    + rewrite (IH _ Hr). now rewrite orb_assoc.
Qed.

(** Once the PYTHONPATH line is written, the loop only replaces. *)
Lemma run_loop_added (lines : list string) (in_service : bool) :
  fst (run_loop' true in_service lines) = (map replaced' lines, true).
Proof.
  revert in_service. induction lines as [|l r IH]; intros in_service.
  - reflexivity.
  - cbn [run_loop map]. rewrite step_cases.
    destruct (is_service_line l) eqn:Hs.
    + specialize (IH true). destruct (run_loop' true true r) as [[o a] i].
      cbn [fst] in *. inversion IH; subst. now rewrite replaced_service.
    + destruct (is_section_line l) eqn:Hh.
      * rewrite andb_false_r. specialize (IH false).
        destruct (run_loop' true false r) as [[o a] i].
        cbn [fst] in *. inversion IH; subst. now rewrite replaced_section.
      * cbn [orb]. specialize (IH in_service).
        destruct (run_loop' true in_service r) as [[o a] i].
        cbn [fst] in *. now inversion IH; subst.
Qed.

(** Inside the [[Service]] section, before the next header and with no
    PYTHONPATH line, the loop only replaces and stays inside. *)
Lemma run_loop_inside (lines : list string) :
  forallb (fun l => negb (is_section_line l) && negb (is_pythonpath_line l)) lines
  = true ->
  run_loop' false true lines = (map replaced' lines, false, true).
Proof.
  induction lines as [|l r IH]; intros Hs; [reflexivity|].
  cbn [forallb] in Hs. apply andb_true_iff in Hs as [Hl Hr].
  apply andb_true_iff in Hl as [Hh Hp].
  apply negb_true_iff in Hh. apply negb_true_iff in Hp.
  cbn [run_loop map]. rewrite step_cases, Hh, Hp.
  destruct (is_service_line l) eqn:Hsv;
    [now rewrite (service_is_section _ Hsv) in Hh|].
  cbn [orb]. now rewrite (IH Hr).
Qed.

Lemma run_loop_app (l1 l2 : list string) (added in_service : bool) :
  run_loop' added in_service (l1 ++ l2)
  = let '(o1, a1, i1) := run_loop' added in_service l1 in
    let '(o2, a2, i2) := run_loop' a1 i1 l2 in
    ((o1 ++ o2)%list, a2, i2).
Proof.
  revert added in_service. induction l1 as [|l r IH]; intros added in_service.
  - cbn [app run_loop]. now destruct (run_loop' added in_service l2) as [[o a] i].
  - cbn [app run_loop].
    destruct (step' added in_service l) as [[o a] i]. rewrite IH.
    destruct (run_loop' a i r) as [[o1 a1] i1].
    destruct (run_loop' a1 i1 l2) as [[o2 a2] i2].
    now rewrite app_assoc.
Qed.

Lemma add_after_service_none (lines : list string) :
  forallb (fun l => negb (is_service_line l)) lines = true ->
  add_after_service python_path lines = lines.
Proof.
  rewrite add_after_service_flat_map.
  induction lines as [|l r IH]; intros Hs; [reflexivity|].
  cbn [forallb] in Hs. apply andb_true_iff in Hs as [Hl Hr].
  apply negb_true_iff in Hl. cbn [flat_map]. rewrite Hl, (IH Hr). reflexivity.
Qed.

Lemma add_after_service_app (l1 l2 : list string) :
  add_after_service python_path (l1 ++ l2)
  = (add_after_service python_path l1 ++ add_after_service python_path l2)%list.
Proof. rewrite !add_after_service_flat_map. apply flat_map_app. Qed.

Lemma forallb_map_replaced (p : string -> bool) (lines : list string) :
  (forall l, p (replaced' l) = p l) ->
  forallb p (map replaced' lines) = forallb p lines.
Proof.
  intros Hp. induction lines as [|l r IH]; simpl; [reflexivity|].
  now rewrite Hp, IH.
Qed.

(** *** The insertion rule *)

Lemma run_loop_section (lines : list string) :
  forallb (fun l => negb (is_pythonpath_line l)) lines = true ->
  forallb (fun l => negb (is_service_line l)) lines = true ->
  match insert_before_header (pythonpath_line python_path) (map replaced' lines) with
  | Some r' => fst (run_loop' false true lines) = (r', true)
  | None => run_loop' false true lines = (map replaced' lines, false, true)
  end.
Proof.
  induction lines as [|l r IH]; intros Hp Hs; [reflexivity|].
  cbn [forallb] in Hp, Hs.
  apply andb_true_iff in Hp as [Hpl Hpr]. apply andb_true_iff in Hs as [Hsl Hsr].
  apply negb_true_iff in Hpl. apply negb_true_iff in Hsl.
  cbn [map insert_before_header run_loop].
  rewrite section_of_replaced, step_cases, Hsl, Hpl.
  destruct (is_section_line l) eqn:Hh.
  - cbn [andb negb]. pose proof (run_loop_added r false) as Ha.
    destruct (run_loop' true false r) as [[o a] i]. cbn [fst] in *.
    inversion Ha; subst. now rewrite replaced_section.
  - cbn [orb]. specialize (IH Hpr Hsr).
    destruct (insert_before_header (pythonpath_line python_path) (map replaced' r))
      as [r'|].
    + destruct (run_loop' false true r) as [[o a] i]. cbn [fst] in *.
      now inversion IH; subst.
    + now rewrite IH.
Qed.

Lemma place_pythonpath_app (x : string) (l1 l2 : list string) :
  forallb (fun l => negb (is_service_line l)) l1 = true ->
  place_pythonpath x (l1 ++ l2) = (l1 ++ place_pythonpath x l2)%list.
Proof.
  induction l1 as [|l r IH]; intros Hs; [reflexivity|].
  cbn [forallb] in Hs. apply andb_true_iff in Hs as [Hl Hr].
  apply negb_true_iff in Hl. cbn [app place_pythonpath]. now rewrite Hl, IH.
Qed.

(** A text with exactly one [[Service]] header splits around it. *)
Lemma one_service_line (lines : list string) :
  List.length (filter is_service_line lines) = 1 ->
  exists before hdr after,
    lines = (before ++ hdr :: after)%list
    /\ forallb (fun l => negb (is_service_line l)) before = true
    /\ is_service_line hdr = true
    /\ forallb (fun l => negb (is_service_line l)) after = true.
Proof.
  induction lines as [|l r IH]; [discriminate|].
  cbn [filter]. destruct (is_service_line l) eqn:Hl.
  - cbn [List.length]. intros Hc. exists [], l, r.
    repeat split; try assumption.
    apply forallb_forall. intros y Hy.
    destruct (is_service_line y) eqn:Hy'; [|reflexivity].
    assert (Hin : In y (filter is_service_line r)) by (apply filter_In; auto).
    destruct (filter is_service_line r); [contradiction|discriminate].
  - intros Hc. destruct (IH Hc) as (before & hdr & after & -> & Hb & Hh & Ha).
    exists (l :: before), hdr, after. repeat split; try assumption.
    cbn [forallb]. now rewrite Hl, Hb.
Qed.

(** With one [[Service]] header and no PYTHONPATH line in the input,
    the emitted lines are the replaced lines with the PYTHONPATH line
    put where the insertion rule says. *)
Lemma generate_lines_place (content : string) :
  existsb is_pythonpath_line (split newline content) = false ->
  List.length (filter is_service_line (split newline content)) = 1 ->
  generate_lines new_working_dir python_path user content
  = place_pythonpath (pythonpath_line python_path)
      (map replaced' (split newline content)).
Proof.
  intros Hp Hone. rewrite generate_lines_run_loop.
  destruct (one_service_line _ Hone) as (before & hdr & after & E & Hb & Hh & Ha).
  rewrite E in *. clear E Hone.
  assert (Hall : forall l, In l (before ++ hdr :: after)%list ->
                           is_pythonpath_line l = false).
  { intros l Hl. destruct (is_pythonpath_line l) eqn:El; [|reflexivity].
    assert (X : existsb is_pythonpath_line (before ++ hdr :: after)%list = true)
      by (apply existsb_exists; eauto).
    congruence. }
  assert (Hpb : existsb is_pythonpath_line before = false).
  { destruct (existsb is_pythonpath_line before) eqn:X; [|reflexivity].
    apply existsb_exists in X as (l & Hl & El).
    rewrite Hall in El; [discriminate|]. apply in_or_app. now left. }
  assert (Hpa : forallb (fun l => negb (is_pythonpath_line l)) after = true).
  { apply forallb_forall. intros l Hl. rewrite Hall; [reflexivity|].
    apply in_or_app. right. now right. }
  rewrite run_loop_app, run_loop_outside, Hpb by assumption.
  cbn [orb run_loop]. rewrite step_cases, Hh.
  rewrite map_app. cbn [map].
  rewrite place_pythonpath_app
    by (rewrite forallb_map_replaced; [assumption|];
        intros l; now rewrite service_of_replaced).
  cbn [place_pythonpath]. rewrite service_of_replaced, Hh.
  rewrite (replaced_service _ Hh).
  pose proof (run_loop_section after Hpa Ha) as Hsec.
  destruct (insert_before_header (pythonpath_line python_path) (map replaced' after))
    as [r'|].
  - destruct (run_loop' false true after) as [[o a] i]. cbn [fst] in Hsec.
    inversion Hsec; subst. reflexivity.
  - rewrite Hsec. cbn [negb app]. rewrite add_after_service_app.
    rewrite add_after_service_none
      by (rewrite forallb_map_replaced; [assumption|];
          intros l; now rewrite service_of_replaced).
    change (hdr :: map replaced' after) with ([hdr] ++ map replaced' after)%list.
    rewrite add_after_service_app.
    rewrite (add_after_service_none (map replaced' after))
      by (rewrite forallb_map_replaced; [assumption|];
          intros l; now rewrite service_of_replaced).
    rewrite add_after_service_flat_map. cbn [flat_map]. rewrite Hh. reflexivity.
Qed.

(** *** Running the loop on its own output *)

Lemma covered_run_loop (lines : list string) (in_service : bool) :
  covered in_service lines = true ->
  fst (run_loop' false in_service lines) = (map replaced' lines, true).
Proof.
  revert in_service. induction lines as [|l r IH]; intros in_service Hc;
    [discriminate|].
  cbn [covered] in Hc. cbn [run_loop map]. rewrite step_cases.
  destruct (is_service_line l) eqn:Hs.
  - specialize (IH true Hc). destruct (run_loop' false true r) as [[o a] i].
    cbn [fst] in *. inversion IH; subst. now rewrite replaced_service.
  - destruct (is_section_line l) eqn:Hh.
    + destruct in_service; [discriminate|]. cbn [andb].
      specialize (IH false Hc). destruct (run_loop' false false r) as [[o a] i].
      cbn [fst] in *. inversion IH; subst. now rewrite replaced_section.
    + cbn [orb]. destruct (is_pythonpath_line l) eqn:Hp.
      * pose proof (run_loop_added r in_service) as Ha.
        destruct (run_loop' true in_service r) as [[o a] i].
        cbn [fst] in *. now inversion Ha; subst.
      * specialize (IH in_service Hc).
        destruct (run_loop' false in_service r) as [[o a] i].
        cbn [fst] in *. now inversion IH; subst.
Qed.

Lemma count_pythonpath_replaced (lines : list string) :
  count_pythonpath (map replaced' lines) = count_pythonpath lines.
Proof.
  unfold count_pythonpath. induction lines as [|l r IH]; [reflexivity|].
  cbn [map filter]. rewrite pythonpath_of_replaced.
  destruct (is_pythonpath_line l); cbn [List.length]; now rewrite IH.
Qed.

(** The first emitted line is the replaced first input line. *)
Lemma generate_lines_head (content l0 : string) (r : list string) :
  split newline content = l0 :: r ->
  exists rest,
    generate_lines new_working_dir python_path user content = replaced' l0 :: rest.
Proof.
  intros E. rewrite generate_lines_run_loop, E. cbn [run_loop].
  assert (Hhead : exists a i, step' false false l0 = ([replaced' l0], a, i)).
  { rewrite step_cases. destruct (is_service_line l0) eqn:Hs.
    - rewrite replaced_service by assumption. eauto.
    - destruct (is_section_line l0) eqn:Hh; [|eauto].
      rewrite replaced_section by assumption. cbn [andb]. eauto. }
  destruct Hhead as (a & i & ->).
  destruct (run_loop' a i r) as [[o a'] i']. cbn [app].
  destruct (negb a'); [|eauto].
  rewrite add_after_service_flat_map. cbn [flat_map].
  destruct (is_service_line (replaced' l0)); cbn [app]; eauto.
Qed.

Lemma replaced_not_failure_text (l : string) :
  startswith "Could not read" l = false -> startswith "Error" l = false ->
  startswith "Could not read" (replaced' l) = false
  /\ startswith "Error" (replaced' l) = false.
Proof.
  intros Hc He. unfold replaced.
  destruct (is_workdir_line l); [split; reflexivity|].
  destruct (is_user_line l && negb (user =? "")); [split; reflexivity|].
  destruct (is_group_line l && negb (user =? "")); [split; reflexivity|].
  destruct (is_pythonpath_line l); [split; reflexivity|]. now split.
Qed.

Lemma replaced_not_empty (l : string) : l <> "" -> replaced' l <> "".
Proof.
  intros Hl. unfold replaced.
  destruct (is_workdir_line l); [discriminate|].
  destruct (is_user_line l && negb (user =? "")); [discriminate|].
  destruct (is_group_line l && negb (user =? "")); [discriminate|].
  destruct (is_pythonpath_line l); [discriminate|assumption].
Qed.

(** The result of a readable text is readable again. *)
Lemma generated_readable (content : string) :
  unreadable content = false ->
  unreadable (join nl (generate_lines new_working_dir python_path user content))
  = false.
Proof.
  intros Hr. unfold unreadable in Hr.
  apply orb_false_iff in Hr as [Hr He]. apply orb_false_iff in Hr as [H0 Hc].
  destruct (split newline content) as [|l0 r] eqn:E;
    [now apply split_not_nil in E|].
  pose proof (join_split content) as Hj. rewrite E in Hj.
  rewrite <- Hj in Hc, He.
  rewrite startswith_join in Hc, He by reflexivity.
  destruct (generate_lines_head content l0 r E) as [rest Hg].
  pose proof (Inserted_length _ _ _ (generate_lines_Inserted content)) as Hlen.
  rewrite Hg in *. rewrite E in Hlen. cbn [map List.length] in Hlen.
  rewrite length_map in Hlen.
  destruct (replaced_not_failure_text l0 Hc He) as [Hc' He'].
  unfold unreadable. rewrite !startswith_join by reflexivity.
  rewrite Hc', He', !orb_false_r.
  apply String.eqb_neq. destruct rest as [|y rest'].
  - cbn. apply replaced_not_empty. destruct r; [|cbn in Hlen; lia].
    cbn in Hj. subst content. now apply String.eqb_neq in H0.
  - change (join nl (replaced' l0 :: y :: rest'))
      with (replaced' l0 ++ String newline (join nl (y :: rest'))).
    destruct (replaced' l0); discriminate.
Qed.

(** *** Lines stay lines *)

Hypothesis wd_line : no_newline new_working_dir.
Hypothesis path_line : no_newline python_path.
Hypothesis user_line : no_newline user.

Lemma pythonpath_line_no_newline : no_newline (pythonpath_line python_path).
Proof.
  unfold no_newline in *.
  change (pythonpath_line python_path)
    with (("Environment=" ++ dquote ++ "PYTHONPATH=") ++ (python_path ++ dquote)).
  rewrite !mem_char_app, path_line. reflexivity.
Qed.

Lemma replaced_no_newline (l : string) :
  no_newline l -> no_newline (replaced' l).
Proof.
  intros Hl. unfold replaced.
  destruct (is_workdir_line l);
    [unfold no_newline in *; rewrite mem_char_app, wd_line; reflexivity|].
  destruct (is_user_line l && negb (user =? ""));
    [unfold no_newline in *; rewrite mem_char_app, user_line; reflexivity|].
  destruct (is_group_line l && negb (user =? ""));
    [unfold no_newline in *; rewrite mem_char_app, user_line; reflexivity|].
  destruct (is_pythonpath_line l); [apply pythonpath_line_no_newline|assumption].
Qed.

Lemma generate_lines_no_newline (content : string) :
  Forall no_newline (generate_lines new_working_dir python_path user content).
Proof.
  eapply Inserted_Forall;
    [apply pythonpath_line_no_newline|apply generate_lines_Inserted|].
  apply Forall_map. eapply Forall_impl; [|apply split_lines_no_sep].
  intros l Hl. now apply replaced_no_newline.
Qed.

Lemma generate_lines_not_nil (content : string) :
  generate_lines new_working_dir python_path user content <> [].
Proof.
  eapply Inserted_not_nil; [apply generate_lines_Inserted|].
  pose proof (split_not_nil newline content) as Hn.
  destruct (split newline content); [congruence|discriminate].
Qed.

(** Splitting the generated text gives back the emitted lines. *)
Lemma split_generated (content : string) :
  split newline (join nl (generate_lines new_working_dir python_path user content))
  = generate_lines new_working_dir python_path user content.
Proof.
  apply split_join; [apply generate_lines_not_nil|apply generate_lines_no_newline].
Qed.

End Loop.

(** *** The parser's ExecStart *)

Lemma parse_line_execstart (cfg : ServiceConfig) (l : string) :
  ExecStart (parse_line cfg l)
  = if is_execstart_line l then value_of (strip l) else ExecStart cfg.
Proof.
  unfold parse_line. kinds.
  destruct (startswith "WorkingDirectory=" (strip l)) eqn:Hw.
  { expose_head. reflexivity. }
  destruct (startswith "ExecStart=" (strip l)) eqn:He; [reflexivity|].
  destruct (startswith "Environment=" (strip l)); [reflexivity|].
  destruct (startswith "User=" (strip l)); [reflexivity|].
  destruct (startswith "Group=" (strip l)); reflexivity.
Qed.

Lemma parse_execstart (lines : list string) (cfg : ServiceConfig) :
  ExecStart (fold_left parse_line lines cfg) = last_execstart lines (ExecStart cfg).
Proof.
  unfold last_execstart. revert cfg.
  induction lines as [|l r IH]; intros cfg; simpl; [reflexivity|].
  now rewrite IH, parse_line_execstart.
Qed.

Lemma last_execstart_filter (lines : list string) (start : string) :
  last_execstart lines start = last_execstart (filter is_execstart_line lines) start.
Proof.
  unfold last_execstart. revert start.
  induction lines as [|l r IH]; intros start; simpl; [reflexivity|].
  destruct (is_execstart_line l) eqn:E; simpl; rewrite ?E; apply IH.
Qed.

End LoopFacts.

(** ** The transformer *)

Module TransformerFacts.
Import PyStr Unit UnitSpec PyStrFacts LoopFacts Backends.

Section Tab.
Context {W : Type} `{CommandExecutor W}.

Lemma unreadable_not_empty (content : string) :
  unreadable content = false -> (content =? "") = false.
Proof.
  unfold unreadable. intros Hr.
  apply orb_false_iff in Hr as [Hr _]. now apply orb_false_iff in Hr as [Hr _].
Qed.

(** On a readable text the result is the join of the emitted lines. *)
Lemma generate_readable (self : ServiceConfigTab) (service_path content : string) :
  unreadable content = false ->
  let tab := show_content self service_path content in
  generate_new_service_content tab
  = join nl (generate_lines
               (_calculate_new_working_dir tab (input_encrypted_folder self))
               (input_encrypted_folder self) (input_user self) content).
Proof.
  intros Hr. cbv zeta. unfold generate_new_service_content, show_content.
  rewrite (unreadable_not_empty _ Hr).
  cbn [negb txt_current_config input_encrypted_folder input_user].
  now rewrite Hr.
Qed.

(** When the unit file is read, [parse_service] ends in [show_content]. *)
Lemma parse_service_shows (self : ServiceConfigTab) :
  combo_service self <> "" ->
  exists w content,
    parse_service self
    = show_content (with_executor self w)
        ("/etc/systemd/system/" ++ combo_service self) content.
Proof.
  intros Hn. unfold parse_service.
  rewrite (proj2 (String.eqb_neq _ _) Hn).
  destruct (read_file (executor self) _) as [content|].
  - exists (executor self), content. now destruct self.
  - destruct (run_command _ (executor self)) as [[[success content] err] w1].
    destruct success; [now exists w1, content|].
    destruct (run_sudo_command _ "" w1) as [[[s2 content'] e2] w2].
    now exists w2, content'.
Qed.

(** The parsed working directory is a single line. *)
Lemma parsed_workdir_no_newline (content : string) :
  no_newline (WorkingDirectory (parse_service_content content)).
Proof.
  unfold parse_service_content.
  assert (G : forall lines cfg,
             Forall no_newline lines -> no_newline (WorkingDirectory cfg) ->
             no_newline (WorkingDirectory (fold_left parse_line lines cfg))).
  { induction lines as [|l r IH]; intros cfg Hl Hc; [assumption|].
    inversion Hl; subst. cbn [fold_left]. apply IH; [assumption|].
    unfold parse_line.
    destruct (startswith "WorkingDirectory=" (strip l)).
    - cbn [WorkingDirectory]. unfold value_of, index, no_newline.
      pose proof (mem_char_split1 newline "=" (strip l)
                    (mem_char_strip newline l ltac:(assumption))) as Hs.
      destruct (split1 "=" (strip l)) as [|x [|y t]]; try reflexivity.
      cbn [nth_error]. inversion Hs as [|? ? _ Hs']; subst. now inversion Hs'.
    - destruct (startswith "ExecStart=" (strip l)); [assumption|].
      destruct (startswith "Environment=" (strip l)); [assumption|].
      destruct (startswith "User=" (strip l)); [assumption|].
      destruct (startswith "Group=" (strip l)); assumption. }
  apply G; [apply split_lines_no_sep|reflexivity].
Qed.

(** The new working directory is a single line when the dist path, the
    names listed under it and the original working directory are. *)
Lemma new_working_dir_no_newline (self : ServiceConfigTab) (dist_folder : string) :
  no_newline dist_folder ->
  Forall no_newline (list_dir (executor self) dist_folder) ->
  no_newline (WorkingDirectory (current_service_config self)) ->
  no_newline (_calculate_new_working_dir self dist_folder).
Proof.
  intros Hd Hl Hw. unfold _calculate_new_working_dir.
  destruct (_detect_project_folder self dist_folder) as [P|] eqn:E; [|assumption].
  destruct (P =? ""); [assumption|].
  assert (HP : no_newline P).
  { unfold _detect_project_folder in E. apply find_some in E as [Hin _].
    eapply Forall_forall in Hl; eassumption. }
  assert (Hbase : no_newline (PosixPath.join dist_folder P))
    by now apply mem_char_posix_join.
  destruct (WorkingDirectory (current_service_config self) =? ""); [assumption|].
  destruct (find_index _ _) as [idx|]; [|assumption].
  destruct (Nat.ltb idx _); [|assumption].
  apply mem_char_posix_join; [reflexivity|assumption|].
  apply mem_char_join; [reflexivity|].
  apply Forall_forall. intros x Hx.
  assert (Hparts : Forall (fun x => mem_char newline x = false)
                     (split slash (replace backslash slash
                                     (WorkingDirectory (current_service_config self))))).
  { apply mem_char_split. now apply mem_char_replace. }
  eapply Forall_forall in Hparts; [eassumption|].
  rewrite <- (firstn_skipn (idx + 1)). apply in_or_app. now right.
Qed.

Lemma show_content_folder
    (self : @ServiceConfigTab W) (service_path content : string) :
  input_encrypted_folder (show_content self service_path content)
  = input_encrypted_folder self.
Proof. unfold show_content. now destruct (negb (content =? "")). Qed.

Lemma show_content_user
    (self : @ServiceConfigTab W) (service_path content : string) :
  input_user (show_content self service_path content) = input_user self.
Proof. unfold show_content. now destruct (negb (content =? "")). Qed.

Lemma show_content_executor
    (self : @ServiceConfigTab W) (service_path content : string) :
  executor (show_content self service_path content) = executor self.
Proof. unfold show_content. now destruct (negb (content =? "")). Qed.

(** After a readable text is shown, the new working directory is a single
    line as soon as the dist path and the names listed under it are. *)
Lemma shown_working_dir_no_newline
    (self : ServiceConfigTab) (service_path content dist_folder : string) :
  unreadable content = false ->
  no_newline dist_folder ->
  Forall no_newline (list_dir (executor self) dist_folder) ->
  no_newline (_calculate_new_working_dir
                (show_content self service_path content) dist_folder).
Proof.
  intros Hr Hd Hl. apply new_working_dir_no_newline; [assumption| |].
  - now rewrite show_content_executor.
  - unfold show_content. rewrite (unreadable_not_empty _ Hr). cbn [negb].
    apply parsed_workdir_no_newline.
Qed.


Lemma count_pythonpath_none (lines : list string) :
  existsb is_pythonpath_line lines = false -> count_pythonpath lines = 0.
Proof.
  unfold count_pythonpath. induction lines as [|l r IH]; [reflexivity|].
  cbn [existsb filter]. intros E. apply orb_false_iff in E as [El Er].
  rewrite El. now apply IH.
Qed.

Lemma one_service_line_exists (lines : list string) :
  List.length (filter is_service_line lines) = 1 ->
  existsb is_service_line lines = true.
Proof.
  induction lines as [|l r IH]; [discriminate|].
  cbn [existsb filter]. destruct (is_service_line l); [reflexivity|assumption].
Qed.

(** C2, amended: on a text that does not take the fallback, has exactly
    one [[Service]] header and no PYTHONPATH line, the dist path, the
    user and the names listed under the dist path being single lines,
    the result is the text with its replaced lines and one PYTHONPATH
    line, put immediately before the section header that follows
    [[Service]] or, when none follows, immediately after the [[Service]]
    header; and transforming the result again leaves exactly one such
    line. *)
Theorem pythonpath_inserted_once
    (self : ServiceConfigTab) (service_path content : string) :
  unreadable content = false ->
  existsb is_pythonpath_line (split newline content) = false ->
  List.length (filter is_service_line (split newline content)) = 1 ->
  let tab := show_content self service_path content in
  let dist := input_encrypted_folder self in
  let user := input_user self in
  let wd := _calculate_new_working_dir tab dist in
  no_newline dist -> no_newline user ->
  Forall no_newline (list_dir (executor self) dist) ->
  let out := generate_new_service_content tab in
  let again := show_content tab service_path out in
  split newline out
  = place_pythonpath (pythonpath_line dist)
      (map (replaced wd dist user) (split newline content))
  /\ count_pythonpath (split newline out) = 1
  /\ count_pythonpath (split newline (generate_new_service_content again)) = 1.
Proof.
  intros Hr Hp Hone tab dist user wd Hd Hu Hl out again.
  assert (Hw : no_newline wd) by now apply shown_working_dir_no_newline.
  assert (Hsvc : existsb is_service_line
                   (map (replaced wd dist user) (split newline content)) = true).
  { rewrite existsb_map_replaced by (intros l; apply service_of_replaced).
    now apply one_service_line_exists. }
  destruct (pythonpath_line_kind dist) as (Kp & _ & _ & _ & Ks & Kh).
  assert (Hout : split newline out
                 = place_pythonpath (pythonpath_line dist)
                     (map (replaced wd dist user) (split newline content))).
  { subst out tab. rewrite generate_readable by assumption.
    rewrite split_generated by assumption.
    now apply generate_lines_place. }
  assert (Hcount : count_pythonpath (split newline out) = 1).
  { rewrite Hout, count_place_pythonpath by assumption.
    now rewrite count_pythonpath_replaced, count_pythonpath_none. }
  split; [assumption|]. split; [assumption|].
  assert (Hr2 : unreadable out = false).
  { subst out tab. rewrite generate_readable by assumption.
    now apply generated_readable. }
  assert (Hw2 : no_newline (_calculate_new_working_dir again dist)).
  { apply shown_working_dir_no_newline; [assumption|assumption|].
    subst tab. now rewrite show_content_executor. }
  subst again. rewrite generate_readable by assumption.
  assert (Hf : input_encrypted_folder tab = dist) by apply show_content_folder.
  assert (Hu' : input_user tab = user) by apply show_content_user.
  rewrite Hf, Hu'.
  rewrite split_generated by assumption.
  rewrite generate_lines_run_loop.
  pose proof (covered_run_loop
                (_calculate_new_working_dir (show_content tab service_path out) dist)
                dist user (split newline out) false) as Hcov.
  rewrite Hout in Hcov at 1.
  specialize (Hcov (covered_place_pythonpath _ Kp Ks Kh _ Hsvc)).
  destruct (run_loop _ dist user false false (split newline out)) as [[o a] i].
  cbn [fst] in Hcov. inversion Hcov; subst o a. cbn [negb].
  now rewrite count_pythonpath_replaced.
Qed.

(** The project folder is the first entry of the dist folder that is a
    directory and whose name does not begin with [pyarmor_runtime]. *)
Lemma detect_project_folder_first
    (self : ServiceConfigTab) (dist_folder P : string) (before after : list string) :
  list_dir (executor self) dist_folder = (before ++ P :: after)%list ->
  forallb (fun item =>
             negb (is_dir (executor self) (PosixPath.join dist_folder item)
                   && negb (startswith "pyarmor_runtime" item))) before = true ->
  is_dir (executor self) (PosixPath.join dist_folder P) = true ->
  startswith "pyarmor_runtime" P = false ->
  _detect_project_folder self dist_folder = Some P.
Proof.
  intros Hl Hb Hd Hp. unfold _detect_project_folder. rewrite Hl. clear Hl.
  induction before as [|x before IH]; cbn [app find].
  - now rewrite Hd, Hp.
  - cbn [forallb] in Hb. apply andb_true_iff in Hb as [Hx Hb].
    apply negb_true_iff in Hx. rewrite Hx. now apply IH.
Qed.


(** C4, amended: on a text that does not take the fallback, the dist
    path, the user and the names listed under the dist path being single
    lines, the ExecStart lines of the result are those of the input, and
    the parser reads the same ExecStart value from both. *)
Theorem execstart_preserved
    (self : ServiceConfigTab) (service_path content : string) :
  unreadable content = false ->
  let tab := show_content self service_path content in
  no_newline (input_encrypted_folder self) ->
  no_newline (input_user self) ->
  Forall no_newline (list_dir (executor self) (input_encrypted_folder self)) ->
  let out := generate_new_service_content tab in
  filter is_execstart_line (split newline out)
  = filter is_execstart_line (split newline content)
  /\ ExecStart (parse_service_content out)
     = ExecStart (parse_service_content content).
Proof.
  intros Hr tab Hd Hu Hl out.
  assert (Hw : no_newline (_calculate_new_working_dir tab (input_encrypted_folder self)))
    by now apply shown_working_dir_no_newline.
  assert (Hlines : filter is_execstart_line (split newline out)
                   = filter is_execstart_line (split newline content)).
  { subst out tab. rewrite generate_readable by assumption.
    rewrite split_generated by assumption.
    erewrite Inserted_filter; [apply filter_execstart_replaced| |
                               apply generate_lines_Inserted].
    apply pythonpath_line_kind. }
  split; [assumption|].
  unfold parse_service_content.
  rewrite !parse_execstart, (last_execstart_filter (split newline out)), Hlines.
  now rewrite <- last_execstart_filter.
Qed.


End Tab.

Import Table.



(** C2, as stated, fails on the place: when another section follows
    [[Service]], the line is put before that section's header, at the end
    of the [[Service]] section, and the line after the [[Service]] header
    is the first directive of the section. *)
Lemma pythonpath_not_after_service_header :
  existsb is_pythonpath_line (split newline app_unit) = false
  /\ split newline
       (generate_new_service_content (show_content (fresh_tab "svc") unit_path app_unit))
     = [ "[Unit]";
         "Description=App";
         "";
         "[Service]";
         "WorkingDirectory=/opt/dist/app/backend";
         "ExecStart=/usr/bin/python3 main.py --port 8000";
         "Restart=always";
         "";
         pythonpath_line "/opt/dist";
         "[Install]";
         "WantedBy=multi-user.target" ].
Proof. split; reflexivity. Qed.

Lemma pythonpath_inserted_once_witness :
  count_pythonpath
    (split newline
       (generate_new_service_content
          (show_content (show_content (fresh_tab "svc") unit_path app_unit) unit_path
             (generate_new_service_content
                (show_content (fresh_tab "svc") unit_path app_unit)))))
  = 1.
Proof.
  refine (proj2 (proj2 (pythonpath_inserted_once (fresh_tab "svc") unit_path app_unit
                          eq_refl eq_refl eq_refl eq_refl eq_refl _))).
  repeat (constructor; [reflexivity|]). constructor.
Defined.



(** C4, as stated, fails on the fallback: for an empty unit file the
    parser finds no ExecStart, and the result carries the synthesized
    [ExecStart=/usr/bin/python3 main.py]. *)
Lemma execstart_synthesized_by_fallback :
  ExecStart (parse_service_content "") = ""
  /\ ExecStart (parse_service_content
                  (generate_new_service_content
                     (show_content (fresh_tab "svc") unit_path "")))
     = "/usr/bin/python3 main.py".
Proof. split; reflexivity. Qed.

Lemma execstart_preserved_witness :
  ExecStart (parse_service_content
               (generate_new_service_content
                  (show_content (fresh_tab "svc") unit_path app_unit)))
  = "/usr/bin/python3 main.py --port 8000".
Proof.
  refine (eq_trans
            (proj2 (execstart_preserved (fresh_tab "svc") unit_path app_unit
                      eq_refl eq_refl eq_refl _))
            eq_refl).
  repeat (constructor; [reflexivity|]). constructor.
Defined.


End TransformerFacts.

(** ** More on the transformer: what the rewritten unit holds *)

Module TransformerMore.
Import PyStr Unit UnitSpec ParserSpec PyStrFacts LoopFacts TransformerFacts Backends.

Section Lines.
Variables new_working_dir python_path user : string.







(** *** Rewriting what was rewritten *)

Local Abbreviation R := (replaced new_working_dir python_path user).
Local Abbreviation loop := (run_loop new_working_dir python_path user).
Local Abbreviation PP := (pythonpath_line python_path).









End Lines.

(** *** The parser, field by field *)

Section Scan.
Variable is_key : string -> bool.
Variable field : ServiceConfig -> string.
Hypothesis field_step :
  forall cfg l,
    field (parse_line cfg l) = if is_key l then value_of (strip l) else field cfg.

Lemma field_fold (lines : list string) (cfg : ServiceConfig) :
  field (fold_left parse_line lines cfg)
  = match rev (filter is_key lines) with
    | l :: _ => value_of (strip l)
    | [] => field cfg
    end.
Proof.
  revert cfg. induction lines as [|l r IH]; intros cfg; [reflexivity|].
  cbn [fold_left filter]. rewrite IH, field_step.
  destruct (is_key l); [|reflexivity].
  cbn [rev]. now destruct (rev (filter is_key r)).
Qed.

Lemma field_parsed (content : string) :
  field empty_config = "" ->
  field (parse_service_content content) = last_value is_key (split newline content).
Proof.
  intros He. unfold parse_service_content, last_value. rewrite field_fold, He.
  reflexivity.
Qed.

End Scan.

Lemma parse_line_workdir (cfg : ServiceConfig) (l : string) :
  WorkingDirectory (parse_line cfg l)
  = if is_workdir_line l then value_of (strip l) else WorkingDirectory cfg.
Proof.
  unfold parse_line. kinds.
  destruct (startswith "WorkingDirectory=" (strip l)); [reflexivity|].
  destruct (startswith "ExecStart=" (strip l)); [reflexivity|].
  destruct (startswith "Environment=" (strip l)); [reflexivity|].
  destruct (startswith "User=" (strip l)); [reflexivity|].
  destruct (startswith "Group=" (strip l)); reflexivity.
Qed.

Lemma parse_line_user (cfg : ServiceConfig) (l : string) :
  User (parse_line cfg l) = if is_user_line l then value_of (strip l) else User cfg.
Proof.
  unfold parse_line. kinds.
  destruct (startswith "User=" (strip l)) eqn:Hu.
  { expose_head. reflexivity. }
  destruct (startswith "WorkingDirectory=" (strip l)); [reflexivity|].
  destruct (startswith "ExecStart=" (strip l)); [reflexivity|].
  destruct (startswith "Environment=" (strip l)); [reflexivity|].
  destruct (startswith "Group=" (strip l)); reflexivity.
Qed.

Lemma parse_line_group (cfg : ServiceConfig) (l : string) :
  Group (parse_line cfg l) = if is_group_line l then value_of (strip l) else Group cfg.
Proof.
  unfold parse_line. kinds.
  destruct (startswith "Group=" (strip l)) eqn:Hg.
  { expose_head. reflexivity. }
  destruct (startswith "WorkingDirectory=" (strip l)); [reflexivity|].
  destruct (startswith "ExecStart=" (strip l)); [reflexivity|].
  destruct (startswith "Environment=" (strip l)); [reflexivity|].
  destruct (startswith "User=" (strip l)); reflexivity.
Qed.

Lemma parse_line_environment (cfg : ServiceConfig) (l : string) :
  Environment (parse_line cfg l)
  = (Environment cfg
     ++ if is_environment_line l then [value_of (strip l)] else [])%list.
Proof.
  unfold parse_line, is_environment_line.
  destruct (startswith "Environment=" (strip l)) eqn:He.
  { expose_head. reflexivity. }
  destruct (startswith "WorkingDirectory=" (strip l)); [now rewrite app_nil_r|].
  destruct (startswith "ExecStart=" (strip l)); [now rewrite app_nil_r|].
  destruct (startswith "User=" (strip l)); [now rewrite app_nil_r|].
  destruct (startswith "Group=" (strip l)); now rewrite app_nil_r.
Qed.

Lemma environment_fold (lines : list string) (cfg : ServiceConfig) :
  Environment (fold_left parse_line lines cfg)
  = (Environment cfg
     ++ map (fun l => value_of (strip l)) (filter is_environment_line lines))%list.
Proof.
  revert cfg. induction lines as [|l r IH]; intros cfg.
  - cbn. now rewrite app_nil_r.
  - cbn [fold_left filter]. rewrite IH, parse_line_environment.
    destruct (is_environment_line l); cbn [map];
      now rewrite <- app_assoc.
Qed.

Lemma parsed_fields (content : string) :
  let lines := split newline content in
  let cfg := parse_service_content content in
  WorkingDirectory cfg = last_value is_workdir_line lines
  /\ ExecStart cfg = last_value is_execstart_line lines
  /\ User cfg = last_value is_user_line lines
  /\ Group cfg = last_value is_group_line lines
  /\ Environment cfg
     = map (fun l => value_of (strip l)) (filter is_environment_line lines).
Proof.
  cbv zeta. repeat split.
  - apply field_parsed; [apply parse_line_workdir|reflexivity].
  - apply field_parsed; [apply parse_line_execstart|reflexivity].
  - apply field_parsed; [apply parse_line_user|reflexivity].
  - apply field_parsed; [apply parse_line_group|reflexivity].
  - unfold parse_service_content. now rewrite environment_fold.
Qed.

(** X5: the parser reads each of WorkingDirectory, ExecStart, User and
    Group from the last line that sets it (the empty string when none
    does), whatever section the line stands in and whatever the other
    lines are; and it collects the values of all Environment= lines in
    their order, duplicates included. *)
Theorem parser_last_value_wins (content : string) :
  let lines := split newline content in
  let cfg := parse_service_content content in
  WorkingDirectory cfg = last_value is_workdir_line lines
  /\ ExecStart cfg = last_value is_execstart_line lines
  /\ User cfg = last_value is_user_line lines
  /\ Group cfg = last_value is_group_line lines
  /\ Environment cfg
     = map (fun l => value_of (strip l)) (filter is_environment_line lines).
Proof. exact (parsed_fields content). Qed.

Lemma last_value_app (is_key : string -> bool) (before after : list string) (l : string) :
  is_key l = true -> existsb is_key after = false ->
  last_value is_key (before ++ l :: after) = value_of (strip l).
Proof.
  intros Hl Ha. unfold last_value. rewrite filter_app. cbn [filter]. rewrite Hl.
  assert (E : filter is_key after = []).
  { induction after as [|x r IH]; [reflexivity|].
    cbn [existsb] in Ha. apply orb_false_iff in Ha as [Hx Hr].
    cbn [filter]. rewrite Hx. now apply IH. }
  rewrite E, rev_app_distr. reflexivity.
Qed.

(** The text after the first equals sign of [key=value]. *)
Lemma value_of_key (key v : string) :
  mem_char "=" key = false -> value_of (key ++ "=" ++ v) = v.
Proof.
  intros Hk. unfold value_of, index.
  assert (E : split1 "=" (key ++ "=" ++ v) = [key; v]).
  { induction key as [|c k IH].
    - reflexivity.
    - cbn [mem_char] in Hk. apply orb_false_iff in Hk as [Hc Hk].
      change (String c k ++ "=" ++ v) with (String c (k ++ "=" ++ v)).
      cbn [split1]. rewrite Hc, (IH Hk). reflexivity. }
  now rewrite E.
Qed.

(** X6: for each of the four single-valued directives, when the last line
    that sets it reads [key=value], the parsed field is the value with its
    trailing blanks removed, equals signs inside the value included. *)
Theorem parser_reads_value_after_first_equals
    (key : string) (field : ServiceConfig -> string)
    (content v : string) (before after : list string) :
  In (key, field) scalar_keys ->
  split newline content = app before ((key ++ "=" ++ v) :: after) ->
  existsb (is_key_line key) after = false ->
  field (parse_service_content content) = rstrip v.
Proof.
  intros Hin Hs Ha.
  assert (Hstrip : forall k, no_space (k ++ "=") = true ->
                             strip (k ++ "=" ++ v) = k ++ "=" ++ rstrip v).
  { intros k Hk.
    replace (k ++ "=" ++ v) with ((k ++ "=") ++ v) by apply append_assoc.
    rewrite strip_app_no_space; [apply append_assoc|assumption|].
    destruct k; discriminate. }
  destruct (parsed_fields content) as (Hw & He & Hu & Hg & _).
  cbv zeta in Hw, He, Hu, Hg. rewrite Hs in Hw, He, Hu, Hg.
  cbn [scalar_keys In] in Hin.
  destruct Hin as [E|[E|[E|[E|[]]]]]; inversion E; subst key field; clear E.
  - rewrite Hw, last_value_app; [| |exact Ha].
    + rewrite Hstrip by reflexivity. now apply value_of_key.
    + unfold is_workdir_line. rewrite Hstrip by reflexivity. reflexivity.
  - rewrite He, last_value_app; [| |exact Ha].
    + rewrite Hstrip by reflexivity. now apply value_of_key.
    + unfold is_execstart_line. rewrite Hstrip by reflexivity. reflexivity.
  - rewrite Hu, last_value_app; [| |exact Ha].
    + rewrite Hstrip by reflexivity. now apply value_of_key.
    + unfold is_user_line. rewrite Hstrip by reflexivity. reflexivity.
  - rewrite Hg, last_value_app; [| |exact Ha].
    + rewrite Hstrip by reflexivity. now apply value_of_key.
    + unfold is_group_line. rewrite Hstrip by reflexivity. reflexivity.
Qed.



Section Tab.
Context {W : Type} `{CommandExecutor W}.








End Tab.

(** *** The fallback unit *)

Lemma rstrip_cons (c : ascii) (r : string) :
  isspace c = false -> rstrip (String c r) = String c (rstrip r).
Proof. intros Hc. cbn [rstrip]. rewrite Hc. now destruct (rstrip r). Qed.

Lemma strip_cons2 (a b : ascii) (r : string) :
  isspace a = false -> isspace b = false ->
  strip (String a (String b r)) = String a (String b (rstrip r)).
Proof.
  intros Ha Hb. unfold strip. cbn [lstrip]. rewrite Ha.
  now rewrite !rstrip_cons.
Qed.

Lemma rstrip_snoc (x : string) (c : ascii) :
  isspace c = false -> rstrip (x ++ String c "") = x ++ String c "".
Proof.
  intros Hc. induction x as [|a x IH]; cbn [append rstrip].
  - now rewrite Hc.
  - rewrite IH. destruct (x ++ String c "") eqn:E; [|reflexivity].
    destruct x; discriminate.
Qed.

Lemma mem_char_replace_from (c : ascii) (old new s : string) (skip : nat) :
  mem_char c new = false -> mem_char c s = false ->
  mem_char c (replace_from old new skip s) = false.
Proof.
  intros Hn. revert skip. induction s as [|a r IH]; intros skip Hs; [reflexivity|].
  cbn [mem_char] in Hs. apply orb_false_iff in Hs as [Ha Hr].
  cbn [replace_from]. destruct skip as [|k]; [|now apply IH].
  destruct (startswith old (String a r)).
  - rewrite mem_char_app, Hn. now apply IH.
  - cbn [mem_char]. rewrite Ha. now apply IH.
Qed.

Lemma filter_head_true (f : string -> bool) (x : string) (l : list string) :
  f x = true -> filter f (x :: l) = x :: filter f l.
Proof. intros E. cbn [filter]. now rewrite E. Qed.

Lemma filter_head_false (f : string -> bool) (x : string) (l : list string) :
  f x = false -> filter f (x :: l) = filter f l.
Proof. intros E. cbn [filter]. now rewrite E. Qed.

Lemma strip_description (x : string) :
  strip ("Description=Service for " ++ x)
  = String "D" (String "e" (rstrip ("scription=Service for " ++ x))).
Proof.
  change ("Description=Service for " ++ x)
    with (String "D" (String "e" ("scription=Service for " ++ x))).
  now apply strip_cons2.
Qed.

(** Decide one of the parser's tests on a line of the fallback unit. *)
Ltac fallback_test :=
  unfold is_workdir_line, is_execstart_line, is_user_line, is_group_line,
    is_environment_line;
  rewrite ?strip_description, ?strip_workdir, ?strip_user, ?strip_group;
  rewrite ?(strip_pythonpath_line : forall x,
               strip ("Environment=" ++ dquote ++ "PYTHONPATH=" ++ x ++ dquote) = _);
  reflexivity.

Ltac fallback_filter :=
  repeat first [ rewrite filter_head_false by fallback_test
               | rewrite filter_head_true by fallback_test ];
  cbn [filter].

(** X9: the unit synthesized when the original cannot be read parses back
    to the computed values: the working directory, the user as User and
    as Group, the fixed [ExecStart=/usr/bin/python3 main.py], and the two
    environment values with their quotes. *)
Theorem fallback_parses_back (combo_service_text working_dir python_path user : string) :
  no_newline combo_service_text -> no_newline working_dir ->
  no_newline python_path -> no_newline user ->
  let cfg := parse_service_content
               (_generate_fallback_service_content combo_service_text working_dir
                  python_path user) in
  WorkingDirectory cfg = rstrip working_dir
  /\ ExecStart cfg = "/usr/bin/python3 main.py"
  /\ User cfg = rstrip user
  /\ Group cfg = rstrip user
  /\ Environment cfg
     = [ dquote ++ "PYTHONPATH=" ++ python_path ++ dquote;
         dquote ++ "PYTHONUNBUFFERED=1" ++ dquote ].
Proof.
  intros Hc Hw Hp Hu cfg.
  destruct (parsed_fields (_generate_fallback_service_content combo_service_text
                             working_dir python_path user))
    as (Ewd & Eex & Eus & Egr & Eenv).
  cbv zeta in Ewd, Eex, Eus, Egr, Eenv. subst cfg.
  rewrite Ewd, Eex, Eus, Egr, Eenv. clear Ewd Eex Eus Egr Eenv.
  unfold _generate_fallback_service_content.
  rewrite split_join.
  2: discriminate.
  2: { unfold no_newline in *.
       repeat (constructor;
               [first [reflexivity
                      | unfold replace_str; rewrite ?mem_char_app;
                        rewrite ?mem_char_replace_from by (reflexivity || assumption);
                        rewrite ?Hw, ?Hp, ?Hu; reflexivity]|]).
       constructor. }
  unfold last_value. repeat split.
  - fallback_filter. cbn [rev app]. rewrite strip_workdir.
    now apply (value_of_key "WorkingDirectory").
  - fallback_filter. reflexivity.
  - fallback_filter. cbn [rev app]. rewrite strip_user.
    now apply (value_of_key "User").
  - fallback_filter. cbn [rev app]. rewrite strip_group.
    now apply (value_of_key "Group").
  - fallback_filter. cbn [map].
    change ("Environment=" ++ dquote ++ "PYTHONPATH=" ++ python_path ++ dquote)
      with (pythonpath_line python_path).
    rewrite (strip_pythonpath_line python_path).
    change (python_path ++ dquote) with (python_path ++ String "034" "").
    rewrite rstrip_snoc by reflexivity. reflexivity.
Qed.

Import Table.





Lemma parser_reads_value_after_first_equals_witness :
  ExecStart (parse_service_content Units.full_unit)
  = rstrip "/usr/bin/python3 main.py --port=8000".
Proof.
  refine (parser_reads_value_after_first_equals "ExecStart" ExecStart
            Units.full_unit "/usr/bin/python3 main.py --port=8000"
            [ "[Unit]"; "Description=App"; "[Service]"; "User=deploy";
              "Group=deploy"; "Environment=PYTHONPATH=/srv/app";
              "Environment=PORT=8000"; "  WorkingDirectory=/srv/app/backend" ]
            [ "[Install]"; "WantedBy=multi-user.target" ]
            _ eq_refl eq_refl).
  cbn. tauto.
Defined.



Lemma fallback_parses_back_witness :
  let cfg := parse_service_content
               (_generate_fallback_service_content "app.service" "/opt/dist/app"
                  "/opt/dist" "svc") in
  WorkingDirectory cfg = rstrip "/opt/dist/app"
  /\ ExecStart cfg = "/usr/bin/python3 main.py"
  /\ User cfg = rstrip "svc"
  /\ Group cfg = rstrip "svc"
  /\ Environment cfg
     = [ dquote ++ "PYTHONPATH=" ++ "/opt/dist" ++ dquote;
         dquote ++ "PYTHONUNBUFFERED=1" ++ dquote ].
Proof.
  exact (fallback_parses_back "app.service" "/opt/dist/app" "/opt/dist" "svc"
           eq_refl eq_refl eq_refl eq_refl).
Defined.

End TransformerMore.

(** ** More on the two pipelines *)

Module PipelineMore.
Import PyStr Unit Worker Pipelines Apply Backends.

Section Generic.
Context {W : Type} `{CommandExecutor W}.

Lemma log_if_nonempty_eq (s line : string) (w : W) :
  log_if_nonempty s line w
  = (tt, w, if negb (s =? "") then [Log line] else []).
Proof. unfold log_if_nonempty. destruct (negb (s =? "")); reflexivity. Qed.

Lemma commands_app (t1 t2 : list Event) :
  commands (app t1 t2) = app (commands t1) (commands t2).
Proof.
  induction t1 as [|e t1 IH]; [reflexivity|].
  destruct e; cbn [app commands]; now rewrite IH.
Qed.

Lemma secrets_app (t1 t2 : list Event) :
  secrets (app t1 t2) = app (secrets t1) (secrets t2).
Proof.
  induction t1 as [|e t1 IH]; [reflexivity|].
  destruct e; cbn [app secrets]; now rewrite IH.
Qed.

Lemma writes_app (t1 t2 : list Event) :
  writes (app t1 t2) = app (writes t1) (writes t2).
Proof.
  induction t1 as [|e t1 IH]; [reflexivity|].
  destruct e; cbn [app writes]; now rewrite IH.
Qed.

Lemma commands_optional_log (b : bool) (line : string) :
  commands (if b then [Log line] else []) = [].
Proof. now destruct b. Qed.

Lemma secrets_optional_log (b : bool) (line : string) :
  secrets (if b then [Log line] else []) = [].
Proof. now destruct b. Qed.

Lemma writes_optional_log (b : bool) (line : string) :
  writes (if b then [Log line] else []) = [].
Proof. now destruct b. Qed.

(** X10: when the configuration command succeeds, the encryption pipeline
    issues, after it, [rm -rf <folder>/dist] only if that folder exists
    and then [pyarmor gen] in every case; the result of the removal is not
    looked at, and the pipeline ends with [(True, <folder>/dist)] exactly
    when [pyarmor gen] succeeds, with [(False, '')] otherwise. *)
Theorem encryption_command_sequence (folder : string) (w : W) :
  SSH.succeeded (fst (run_command "pyarmor cfg data_files=*" w)) = true ->
  let w1 := snd (run_command "pyarmor cfg data_files=*" w) in
  let dist_path := PosixPath.join folder "dist" in
  let enc_cmd :=
    "pyarmor gen -O " ++ dist_path
    ++ " -r --exclude '*/.venv/**' --exclude '*/__pycache__/**' " ++ folder in
  let w2 := if file_exists w1 dist_path
            then snd (run_command ("rm -rf " ++ dist_path) w1) else w1 in
  commands (transcript (encryption_run folder w))
  = "pyarmor cfg data_files=*"
    :: app (if file_exists w1 dist_path then ["rm -rf " ++ dist_path] else [])
         [enc_cmd]
  /\ outcome (encryption_run folder w)
     = (if SSH.succeeded (fst (run_command enc_cmd w2))
        then (true, dist_path) else (false, "")).
Proof.
  intros Hok. cbv zeta. unfold encryption_run.
  unfold outcome, transcript, bind, log, ret, exec_run, exec_exists.
  destruct (run_command "pyarmor cfg data_files=*" w) as [[[success out] err] w1].
  cbn in Hok. subst success. cbn [snd]. rewrite !log_if_nonempty_eq. cbn [negb].
  destruct (file_exists w1 (PosixPath.join folder "dist")).
  - destruct (run_command ("rm -rf " ++ PosixPath.join folder "dist") w1)
      as [[[s2 o2] e2] w2]. cbn [snd].
    destruct (run_command _ w2) as [[[s3 o3] e3] w3].
    rewrite !log_if_nonempty_eq. cbn [fst SSH.succeeded].
    destruct s3; cbn [negb fst snd]; (split; [|reflexivity]);
      rewrite ?commands_app, ?commands_optional_log; reflexivity.
  - destruct (run_command _ w1) as [[[s3 o3] e3] w3].
    rewrite !log_if_nonempty_eq. cbn [fst SSH.succeeded].
    destruct s3; cbn [negb fst snd]; (split; [|reflexivity]);
      rewrite ?commands_app, ?commands_optional_log; reflexivity.
Qed.

(** X11: whatever the backend answers, the encryption pipeline runs no
    privileged command and writes no file. *)
Theorem encryption_never_privileged (folder : string) (w : W) :
  secrets (transcript (encryption_run folder w)) = []
  /\ writes (transcript (encryption_run folder w)) = [].
Proof.
  unfold encryption_run.
  unfold outcome, transcript, bind, log, ret, exec_run, exec_exists.
  destruct (run_command "pyarmor cfg data_files=*" w) as [[[success out] err] w1].
  rewrite !log_if_nonempty_eq. destruct success; cbn [negb].
  - destruct (file_exists w1 (PosixPath.join folder "dist")).
    + destruct (run_command ("rm -rf " ++ PosixPath.join folder "dist") w1)
        as [[[s2 o2] e2] w2].
      destruct (run_command _ w2) as [[[s3 o3] e3] w3].
      rewrite !log_if_nonempty_eq.
      destruct s3; cbn [negb fst snd]; split;
        rewrite ?secrets_app, ?secrets_optional_log,
          ?writes_app, ?writes_optional_log; reflexivity.
    + destruct (run_command _ w1) as [[[s3 o3] e3] w3].
      rewrite !log_if_nonempty_eq.
      destruct s3; cbn [negb fst snd]; split;
        rewrite ?secrets_app, ?secrets_optional_log,
          ?writes_app, ?writes_optional_log; reflexivity.
  - destruct (negb (out =? "")), (negb (err =? "")); split; reflexivity.
Qed.

(** X12: when the unit file cannot be written to its temporary place, the
    deployment ends with [False] and runs no command at all. *)
Theorem deployment_stops_when_write_fails
    (service_name new_config sudo_pass : string) (w : W) :
  fst (write_file ("/tmp/" ++ service_name) new_config w) = false ->
  outcome (service_config_run service_name new_config sudo_pass w) = false
  /\ commands (transcript (service_config_run service_name new_config sudo_pass w)) = []
  /\ log_lines (transcript (service_config_run service_name new_config sudo_pass w))
     = [ "--- Updating Service Configuration ---";
         "Writing service file to: " ++ "/tmp/" ++ service_name;
         cross_mark ++ " Failed to write temp service file" ].
Proof.
  intros Hw. unfold service_config_run.
  unfold outcome, transcript, bind, log, ret, exec_write.
  destruct (write_file ("/tmp/" ++ service_name) new_config w) as [written w1].
  cbn in Hw. subst written. repeat split; reflexivity.
Qed.

Lemma deployment_transcript_shape
    (service_name new_config sudo_pass : string) (w : W) :
  let t := transcript (service_config_run service_name new_config sudo_pass w) in
  writes t = [("/tmp/" ++ service_name, new_config)]
  /\ plain_commands t = []
  /\ Forall (fun s => s = sudo_pass) (secrets t).
Proof.
  cbv zeta. unfold service_config_run.
  unfold outcome, transcript, bind, log, ret, exec_write, exec_sudo.
  destruct (write_file ("/tmp/" ++ service_name) new_config w) as [written w1].
  destruct written; cbn [negb]; [|repeat split; constructor].
  destruct (run_sudo_command _ sudo_pass w1) as [[[success out] err] w2].
  rewrite !log_if_nonempty_eq. destruct success; cbn [negb].
  - destruct (run_sudo_command "systemctl daemon-reload" sudo_pass w2)
      as [[[s3 o3] e3] w3].
    destruct (run_sudo_command _ sudo_pass w3) as [[[s4 o4] e4] w4].
    rewrite !log_if_nonempty_eq.
    destruct (negb (out =? "")), (negb (o4 =? ""));
      repeat split; repeat constructor.
  - destruct (negb (out =? "")); repeat split; repeat constructor.
Qed.

(** X13: whatever the backend answers, the deployment writes one file
    only, the new unit text at [/tmp/<service>]; it runs no unprivileged
    command; and every privileged command it runs is given the secret it
    was started with. *)
Theorem deployment_writes_once_and_runs_privileged_only
    (service_name new_config sudo_pass : string) (w : W) :
  let t := transcript (service_config_run service_name new_config sudo_pass w) in
  writes t = [("/tmp/" ++ service_name, new_config)]
  /\ plain_commands t = []
  /\ Forall (fun s => s = sudo_pass) (secrets t).
Proof. exact (deployment_transcript_shape service_name new_config sudo_pass w). Qed.

Lemma apply_changes_some
    (self : ServiceConfigTab) (sudo_pass : string) (confirmed : bool)
    (r : bool * W * list Event) :
  apply_changes self sudo_pass confirmed = Some r ->
  r = service_config_run (combo_service self) (generate_new_service_content self)
        sudo_pass (executor self).
Proof.
  unfold apply_changes.
  destruct (negb (_ && _ && _)); [discriminate|].
  destruct (negb (file_exists _ _)); [discriminate|].
  destruct (negb confirmed); [discriminate|].
  now intros [= <-].
Qed.

(** X14: [apply_changes] starts no worker unless the service name, the
    dist folder and the password are all non-empty, the dist folder exists
    on the backend and the user confirms; when it does start one, the only
    file written is [/tmp/<service>], holding what
    [generate_new_service_content] returns for the tab. *)
Theorem apply_changes_guards
    (self : ServiceConfigTab) (sudo_pass : string) (confirmed : bool) :
  match apply_changes self sudo_pass confirmed with
  | None =>
      combo_service self = "" \/ input_encrypted_folder self = ""
      \/ sudo_pass = ""
      \/ file_exists (executor self) (input_encrypted_folder self) = false
      \/ confirmed = false
  | Some r =>
      combo_service self <> "" /\ input_encrypted_folder self <> ""
      /\ sudo_pass <> ""
      /\ file_exists (executor self) (input_encrypted_folder self) = true
      /\ confirmed = true
      /\ writes (transcript r)
         = [("/tmp/" ++ combo_service self, generate_new_service_content self)]
  end.
Proof.
  unfold apply_changes.
  destruct (combo_service self =? "") eqn:Es.
  { apply String.eqb_eq in Es. cbn. now left. }
  destruct (input_encrypted_folder self =? "") eqn:Ed.
  { apply String.eqb_eq in Ed. cbn. right. now left. }
  destruct (sudo_pass =? "") eqn:Ep.
  { apply String.eqb_eq in Ep. cbn. right. right. now left. }
  cbn [negb andb].
  destruct (file_exists (executor self) (input_encrypted_folder self)) eqn:Ef;
    cbn [negb]; [|right; right; right; now left].
  destruct confirmed; cbn [negb]; [|right; right; right; now right].
  apply String.eqb_neq in Es. apply String.eqb_neq in Ed. apply String.eqb_neq in Ep.
  repeat split; try assumption.
  apply deployment_transcript_shape.
Qed.

(** X15: applying right after the service selection changed, before any
    unit file is parsed, writes the synthesized fallback unit for the new
    service name, whatever the unit file on the backend holds. *)
Theorem apply_without_parse_writes_fallback
    (self : ServiceConfigTab) (service_name sudo_pass : string)
    (r : bool * W * list Event) :
  apply_changes (on_service_changed self service_name) sudo_pass true = Some r ->
  writes (transcript r)
  = [ ("/tmp/" ++ service_name,
       _generate_fallback_service_content service_name
         (_calculate_new_working_dir (on_service_changed self service_name)
            (input_encrypted_folder self))
         (input_encrypted_folder self) (input_user self)) ].
Proof.
  intros Ha. apply apply_changes_some in Ha. subst r.
  exact (proj1 (deployment_transcript_shape _ _ _ _)).
Qed.

End Generic.

Import Table.

Lemma encryption_command_sequence_witness :
  commands (transcript (encryption_run "/opt" dist_tree))
  = [ "pyarmor cfg data_files=*";
      "rm -rf /opt/dist";
      "pyarmor gen -O /opt/dist -r --exclude '*/.venv/**' --exclude '*/__pycache__/**' /opt" ]
  /\ outcome (encryption_run "/opt" dist_tree) = (true, "/opt/dist").
Proof.
  exact (encryption_command_sequence "/opt" dist_tree eq_refl).
Defined.

Lemma deployment_stops_when_write_fails_witness :
  outcome (service_config_run "app.service" "[Service]" "pw" Fixtures.read_only) = false
  /\ commands (transcript (service_config_run "app.service" "[Service]" "pw"
                             Fixtures.read_only)) = []
  /\ log_lines (transcript (service_config_run "app.service" "[Service]" "pw"
                              Fixtures.read_only))
     = [ "--- Updating Service Configuration ---";
         "Writing service file to: " ++ "/tmp/" ++ "app.service";
         cross_mark ++ " Failed to write temp service file" ].
Proof.
  exact (deployment_stops_when_write_fails "app.service" "[Service]" "pw"
           Fixtures.read_only eq_refl).
Defined.

Lemma apply_without_parse_writes_fallback_witness :
  let tab := on_service_changed
               (show_content (fresh_tab "svc") unit_path app_unit) "web.service" in
  writes (transcript
            (service_config_run "web.service" (generate_new_service_content tab)
               "pw" dist_tree))
  = [ ("/tmp/" ++ "web.service",
       _generate_fallback_service_content "web.service"
         (_calculate_new_working_dir tab "/opt/dist") "/opt/dist" "svc") ].
Proof.
  exact (apply_without_parse_writes_fallback
           (show_content (fresh_tab "svc") unit_path app_unit) "web.service" "pw"
           (service_config_run "web.service"
              (generate_new_service_content
                 (on_service_changed
                    (show_content (fresh_tab "svc") unit_path app_unit) "web.service"))
              "pw" dist_tree)
           eq_refl).
Defined.

End PipelineMore.

(** ** The connection's life cycle and the two executors *)

Module SessionFacts.
Import PyStr Worker Pipelines.
#[local] Existing Instance Session.remote_executor.

Lemma link_not_connected (self : Session.Connection) (cmd : string) (get_pty : bool) :
  Session.is_connected self = false ->
  Session.exec_command self cmd get_pty
  = ((false, "", "Not connected to SSH"), self).
Proof.
  intros Hc. unfold Session.exec_command, Session.with_link.
  rewrite SSHFacts.exec_command_not_connected by assumption.
  now destruct self.
Qed.

(** X16: on a connection that is not connected (never connected, closed,
    or left by a failed connect) every operation fails with its failure
    value and nothing is put on the control channel: commands give
    [(False, '', 'Not connected to SSH')] and leave the connection as it
    is, reading gives [None], writing [False], the existence and
    directory tests [False], and listing the empty list. *)
Theorem not_connected_fails_safe
    (self : Session.Connection) (cmd sudo_pass path content : string) (get_pty : bool) :
  Session.is_connected self = false ->
  Session.exec_command self cmd get_pty = ((false, "", "Not connected to SSH"), self)
  /\ Session.exec_sudo_command self cmd sudo_pass
     = ((false, "", "Not connected to SSH"), self)
  /\ Session.read_file self path = None
  /\ Session.write_file self path content = false
  /\ Session.file_exists self path = false
  /\ Session.list_dir self path = []
  /\ Session.is_dir self path = false.
Proof.
  intros Hc. split; [now apply link_not_connected|]. split.
  - unfold Session.exec_sudo_command, SSH.exec_sudo_command.
    now apply link_not_connected.
  - unfold Session.read_file, Session.write_file, Session.file_exists,
      Session.list_dir, Session.is_dir.
    rewrite Hc. repeat split; reflexivity.
Qed.

(** X17: [disconnect] always leaves the connection not connected, and is
    idempotent; [connect] on a connection that is not connected leaves it
    connected exactly when it returns [True], that is, when paramiko is
    present and both the session and the SFTP channel opened. *)
Theorem connection_life_cycle
    (self : Session.Connection) (ssh_available : bool)
    (net : Session.ConnectOutcome) (host username : string) :
  Session.is_connected self = false ->
  let r := Session.connect ssh_available self net host username in
  Session.is_connected (Session.disconnect self) = false
  /\ Session.disconnect (Session.disconnect self) = Session.disconnect self
  /\ Session.is_connected (snd r)
     = (match fst r with inr _ => true | inl _ => false end)
  /\ (fst r = inr true <->
      ssh_available = true /\ exists cl sf, net = Session.Established cl sf).
Proof.
  intros Hc. cbv zeta. split; [reflexivity|]. split; [reflexivity|].
  unfold Session.connect. destruct ssh_available; cbn [negb fst snd].
  - destruct net as [cl sf|cl msg|cl msg]; cbn [fst snd]; split; try reflexivity.
    + split; [intros _; split; [reflexivity|eauto]|reflexivity].
    + split; [discriminate|]. intros [_ (cl' & sf' & E)]. discriminate.
    + split; [discriminate|]. intros [_ (cl' & sf' & E)]. discriminate.
  - split; [assumption|]. split; [discriminate|]. intros [E _]. discriminate.
Qed.

(** X18: over a connection that is not connected, both pipelines fail at
    their first step and send nothing: the encryption pipeline logs the
    refusal as stderr of the configuration command and ends with
    [(False, '')]; the deployment cannot write its temporary file, runs no
    command and ends with [False]. *)
Theorem pipelines_fail_on_closed_connection
    (self : Session.Connection) (folder service_name new_config sudo_pass : string) :
  Session.is_connected self = false ->
  encryption_run folder self
  = ((false, ""), self,
     [ Log "--- Starting Encryption Process ---";
       Log "Executing: pyarmor cfg data_files=*";
       RunCommand "pyarmor cfg data_files=*";
       Log "STDERR: Not connected to SSH";
       Log (cross_mark ++ " Failed to configure PyArmor") ])
  /\ outcome (service_config_run service_name new_config sudo_pass self) = false
  /\ commands (transcript (service_config_run service_name new_config sudo_pass self)) = []
  /\ snd (fst (service_config_run service_name new_config sudo_pass self)) = self.
Proof.
  intros Hc. split.
  - unfold encryption_run, bind, log, ret, exec_run, log_if_nonempty.
    change (run_command "pyarmor cfg data_files=*" self)
      with (Session.exec_command self "pyarmor cfg data_files=*" false).
    now rewrite link_not_connected.
  - unfold service_config_run, outcome, transcript, bind, log, ret, exec_write.
    change (write_file ("/tmp/" ++ service_name) new_config self)
      with (Session.write_file self ("/tmp/" ++ service_name) new_config, self).
    unfold Session.write_file. rewrite Hc. repeat split; reflexivity.
Qed.



Lemma not_connected_fails_safe_witness :
  Session.exec_command Fixtures.failed_session "ls" false
  = ((false, "", "Not connected to SSH"), Fixtures.failed_session)
  /\ Session.exec_sudo_command Fixtures.failed_session "ls" "pw"
     = ((false, "", "Not connected to SSH"), Fixtures.failed_session)
  /\ Session.read_file Fixtures.failed_session "/etc/hosts" = None
  /\ Session.write_file Fixtures.failed_session "/etc/hosts" "x" = false
  /\ Session.file_exists Fixtures.failed_session "/etc/hosts" = false
  /\ Session.list_dir Fixtures.failed_session "/etc/hosts" = []
  /\ Session.is_dir Fixtures.failed_session "/etc/hosts" = false.
Proof.
  exact (not_connected_fails_safe Fixtures.failed_session "ls" "pw" "/etc/hosts" "x"
           false eq_refl).
Defined.

Lemma connection_life_cycle_witness :
  let r := Session.connect true Session.init
             (Session.Established Fixtures.quiet_client Fixtures.failing_sftp)
             "10.0.0.5" "deploy" in
  Session.is_connected (Session.disconnect Session.init) = false
  /\ Session.disconnect (Session.disconnect Session.init)
     = Session.disconnect Session.init
  /\ Session.is_connected (snd r)
     = (match fst r with inr _ => true | inl _ => false end)
  /\ (fst r = inr true <->
      true = true
      /\ exists cl sf,
           Session.Established Fixtures.quiet_client Fixtures.failing_sftp
           = Session.Established cl sf).
Proof.
  exact (connection_life_cycle Session.init true
           (Session.Established Fixtures.quiet_client Fixtures.failing_sftp)
           "10.0.0.5" "deploy" eq_refl).
Defined.

Lemma pipelines_fail_on_closed_connection_witness :
  let closed := Session.disconnect Fixtures.open_session in
  encryption_run "/srv/app" closed
  = ((false, ""), closed,
     [ Log "--- Starting Encryption Process ---";
       Log "Executing: pyarmor cfg data_files=*";
       RunCommand "pyarmor cfg data_files=*";
       Log "STDERR: Not connected to SSH";
       Log (cross_mark ++ " Failed to configure PyArmor") ])
  /\ outcome (service_config_run "app.service" "[Service]" "pw" closed) = false
  /\ commands (transcript (service_config_run "app.service" "[Service]" "pw" closed)) = []
  /\ snd (fst (service_config_run "app.service" "[Service]" "pw" closed)) = closed.
Proof.
  exact (pipelines_fail_on_closed_connection
           (Session.disconnect Fixtures.open_session)
           "/srv/app" "app.service" "[Service]" "pw" eq_refl).
Defined.


End SessionFacts.

(** ** The selector of services *)

Module ServicesFacts.
Import PyStr Unit Services.

Lemma split_ws_cons (c : ascii) (r : string) :
  split_ws (String c r)
  = if isspace c then split_ws r
    else String c (fst (split_ws_from r)) :: snd (split_ws_from r).
Proof.
  unfold split_ws. cbn [split_ws_from].
  destruct (split_ws_from r) as [w ws]. now destruct (isspace c).
Qed.

Lemma head_run (s : string) :
  exists rest, s = fst (split_ws_from s) ++ rest
               /\ no_blank (fst (split_ws_from s)) = true
               /\ ends_word rest = true.
Proof.
  induction s as [|c r IH].
  - now exists "".
  - cbn [split_ws_from]. destruct (split_ws_from r) as [w ws].
    destruct (isspace c) eqn:Ec; cbn [fst].
    + exists (String c r). cbn. now rewrite Ec.
    + destruct IH as (rest & E & Hn & Hr). exists rest. cbn [fst] in E, Hn.
      cbn. rewrite Ec, Hn, <- E. now split.
Qed.

Lemma head_run_of_word (n rest : string) :
  no_blank n = true -> ends_word rest = true ->
  fst (split_ws_from (n ++ rest)) = n.
Proof.
  intros Hn Hr. induction n as [|a n IH].
  - destruct rest as [|c r]; [reflexivity|]. cbn in *.
    destruct (split_ws_from r). now rewrite Hr.
  - cbn in Hn. apply andb_prop in Hn as [Ha Hn]. specialize (IH Hn).
    apply negb_true_iff in Ha. cbn [append split_ws_from].
    destruct (split_ws_from (n ++ rest)) as [w ws].
    rewrite Ha. cbn [fst] in *. now f_equal.
Qed.

Lemma first_word_iff (line name : string) :
  hd_error (split_ws line) = Some name <-> first_word line name.
Proof.
  split.
  - revert name. induction line as [|c r IH]; intros name Hh; [discriminate|].
    rewrite split_ws_cons in Hh. destruct (isspace c) eqn:Ec.
    + destruct (IH _ Hh) as (pre & rest & E & Hp & Hn & Hne & Hr).
      exists (String c pre), rest. cbn. rewrite Ec, Hp, E. now repeat split.
    + cbn in Hh. injection Hh as <-.
      destruct (head_run r) as (rest & E & Hn & Hr).
      exists "", rest. cbn. rewrite Ec, Hn, <- E. now repeat split.
  - intros (pre & rest & -> & Hp & Hn & Hne & Hr).
    induction pre as [|c pre IH].
    + destruct name as [|a n]; [now contradict Hne|].
      cbn in Hn. apply andb_prop in Hn as [Ha Hn]. apply negb_true_iff in Ha.
      cbn [append]. rewrite split_ws_cons, Ha. cbn.
      now rewrite head_run_of_word.
    + cbn in Hp. apply andb_prop in Hp as [Hc Hp].
      cbn [append]. rewrite split_ws_cons, Hc. now apply IH.
Qed.

Lemma first_word_line_nonempty (line name : string) :
  first_word line name -> line <> "".
Proof.
  intros (pre & rest & -> & _ & _ & Hne & _) E.
  destruct pre; [|discriminate]. destruct name; [now apply Hne|discriminate].
Qed.

Lemma collect_spec (lines acc : list string) (name : string) :
  In name (fold_left collect lines acc)
  <-> In name acc
      \/ (endswith ".service" name = true
          /\ exists line, In line lines /\ first_word line name).
Proof.
  revert acc. induction lines as [|line lines IH]; intros acc; cbn [fold_left].
  - split; [now left|]. intros [Hin|(_ & l & [] & _)]. exact Hin.
  - rewrite IH. clear IH. split.
    + intros [Hin|(He & l & Hl & Hw)];
        [|right; split; [exact He|exists l; split; [now right|exact Hw]]].
      unfold collect in Hin. destruct (negb (line =? "")); [|now left].
      destruct (split_ws line) as [|service_name parts] eqn:Es; [now left|].
      destruct (negb (service_name =? "") && endswith ".service" service_name) eqn:Et;
        [|now left].
      apply in_app_or in Hin as [Hin|[<-|[]]]; [now left|].
      apply andb_prop in Et as [_ Et]. right. split; [exact Et|].
      exists line. split; [now left|]. apply first_word_iff. now rewrite Es.
    + intros [Hin|(He & l & [<-|Hl] & Hw)].
      * left. unfold collect. destruct (negb (line =? "")); [|exact Hin].
        destruct (split_ws line) as [|service_name parts]; [exact Hin|].
        destruct (negb (service_name =? "") && endswith ".service" service_name);
          [|exact Hin].
        apply in_or_app. now left.
      * left. unfold collect.
        pose proof (first_word_line_nonempty _ _ Hw) as Hne.
        apply String.eqb_neq in Hne. rewrite Hne. cbn [negb].
        pose proof Hw as Hh. apply first_word_iff in Hh.
        destruct (split_ws line) as [|service_name parts]; [discriminate|].
        cbn in Hh. injection Hh as ->.
        destruct Hw as (_ & _ & _ & _ & _ & Hn & _).
        apply String.eqb_neq in Hn. rewrite Hn, He. cbn.
        apply in_or_app. right. now left.
      * right. split; [exact He|]. now exists l.
Qed.

Lemma insert_sorted_in (x y : string) (l : list string) :
  In y (insert_sorted x l) <-> y = x \/ In y l.
Proof.
  induction l as [|z l IH]; cbn.
  - split; [intros [<-|[]]; now left|intros [->|[]]; now left].
  - destruct (String.leb x z); cbn; [|rewrite IH]; intuition congruence.
Qed.

Lemma sorted_in (y : string) (l : list string) : In y (sorted l) <-> In y l.
Proof.
  induction l as [|x l IH]; [reflexivity|].
  cbn [sorted fold_right]. fold (sorted l). rewrite insert_sorted_in, IH.
  cbn. intuition congruence.
Qed.

Lemma insert_sorted_hdrel (a x : string) (l : list string) :
  String.leb a x = true ->
  HdRel (fun u v => String.leb u v = true) a l ->
  HdRel (fun u v => String.leb u v = true) a (insert_sorted x l).
Proof.
  intros Hax Hl. destruct l as [|z l]; cbn; [now constructor|].
  destruct (String.leb x z); constructor; [exact Hax|].
  now inversion Hl.
Qed.

Lemma insert_sorted_sorted (x : string) (l : list string) :
  Sorted (fun u v => String.leb u v = true) l ->
  Sorted (fun u v => String.leb u v = true) (insert_sorted x l).
Proof.
  induction 1 as [|z l Hs IH Hh]; cbn.
  - repeat constructor.
  - destruct (String.leb x z) eqn:E.
    + constructor; [now constructor|now constructor].
    + constructor; [exact IH|]. apply insert_sorted_hdrel; [|exact Hh].
      destruct (String.leb_total x z) as [Hl|Hl]; [congruence|exact Hl].
Qed.

Lemma sorted_sorted (l : list string) :
  Sorted (fun u v => String.leb u v = true) (sorted l).
Proof.
  induction l as [|x l IH]; [constructor|].
  cbn [sorted fold_right]. now apply insert_sorted_sorted.
Qed.

Section Tab.
Context {W : Type} `{CommandExecutor W}.

(** X20: the entries [load_services] puts into the selector are in
    ascending order, and, when the listing command succeeds, they are
    exactly the first words of the lines of its stripped output that end in
    [.service]; when the command fails the selector is left empty. *)
Theorem selector_lists_service_units (self : @ServiceConfigTab W) :
  let r := fst (run_command list_unit_files (executor self)) in
  let items := fst (load_services self) in
  Sorted (fun u v => String.leb u v = true) items
  /\ (if SSH.succeeded r
      then forall name,
             In name items
             <-> endswith ".service" name = true
                 /\ exists line,
                      In line (split newline (strip (snd (fst r))))
                      /\ first_word line name
      else items = []).
Proof.
  cbv zeta. unfold load_services.
  destruct (run_command list_unit_files (executor self)) as [[[success out] err] w].
  cbn [fst snd SSH.succeeded]. split; [apply sorted_sorted|].
  destruct success; [|reflexivity].
  intros name. rewrite sorted_in, collect_spec. cbn [In]. tauto.
Qed.

End Tab.

End ServicesFacts.

(** ** Reading the unit file *)

Module ParseFacts.
Import PyStr Unit.

Section Tab.
Context {W : Type} `{CommandExecutor W}.

Lemma parse_service_ends_in_show_content (self : @ServiceConfigTab W) :
  combo_service self <> "" ->
  exists w content,
    parse_service self
    = show_content (with_executor self w)
        ("/etc/systemd/system/" ++ combo_service self) content.
Proof.
  intros Hne. unfold parse_service.
  apply String.eqb_neq in Hne. rewrite Hne.
  destruct (read_file (executor self) _) as [content|].
  - exists (executor self), content. now destruct self.
  - destruct (run_command _ (executor self)) as [[[success content] err] w1].
    destruct success; [now exists w1, content|].
    destruct (run_sudo_command _ "" w1) as [[[s2 content'] e2] w2].
    now exists w2, content'.
Qed.

(** X21: after [parse_service] on a selected service the shown text is
    never empty and the folder, user and service fields are untouched.
    Either the dictionary is the parse of the shown text, or the shown text
    is the failure notice; in that case the dictionary is the one from
    before, and generating the new unit takes the synthesized fallback. *)
Theorem parse_service_outcome (self : @ServiceConfigTab W) :
  combo_service self <> "" ->
  let tab := parse_service self in
  let failure := "Could not read service file: /etc/systemd/system/" ++ combo_service self in
  txt_current_config tab <> ""
  /\ input_encrypted_folder tab = input_encrypted_folder self
  /\ input_user tab = input_user self
  /\ combo_service tab = combo_service self
  /\ (current_service_config tab = parse_service_content (txt_current_config tab)
      \/ (txt_current_config tab = failure
          /\ current_service_config tab = current_service_config self
          /\ generate_new_service_content tab
             = _generate_fallback_service_content (combo_service self)
                 (_calculate_new_working_dir tab (input_encrypted_folder self))
                 (input_encrypted_folder self) (input_user self))).
Proof.
  intros Hne. cbv zeta.
  destruct (parse_service_ends_in_show_content self Hne) as (w & content & ->).
  unfold show_content. destruct (content =? "") eqn:Ec; cbn [negb].
  - cbn [txt_current_config input_encrypted_folder input_user combo_service
           current_service_config with_executor].
    split; [discriminate|]. repeat (split; [reflexivity|]).
    right. repeat (split; [reflexivity|]).
    unfold generate_new_service_content.
    cbn [txt_current_config input_encrypted_folder input_user combo_service
           with_executor].
    reflexivity.
  - cbn [txt_current_config input_encrypted_folder input_user combo_service
           current_service_config with_executor].
    split; [now apply String.eqb_neq|]. repeat (split; [reflexivity|]).
    now left.
Qed.

End Tab.

Import Table Backends.

Lemma parse_service_outcome_witness :
  let tab := parse_service (fresh_tab "svc") in
  let failure := "Could not read service file: /etc/systemd/system/" ++ "app.service" in
  txt_current_config tab <> ""
  /\ input_encrypted_folder tab = "/opt/dist"
  /\ input_user tab = "svc"
  /\ combo_service tab = "app.service"
  /\ (current_service_config tab = parse_service_content (txt_current_config tab)
      \/ (txt_current_config tab = failure
          /\ current_service_config tab = empty_config
          /\ generate_new_service_content tab
             = _generate_fallback_service_content "app.service"
                 (_calculate_new_working_dir tab "/opt/dist") "/opt/dist" "svc")).
Proof.
  refine (parse_service_outcome (fresh_tab "svc") _). discriminate.
Defined.

End ParseFacts.
